(** * phobia.scraper: the WikiScraper pipeline

    A shallow embedding of [src/phobia/scraper.py] (class [WikiScraper]):
    the tag cleaner [clean_tags], the table extractor [scrape_tables], the
    perpetrator counter [get_perpetrators] and the constructor [__init__]
    with its CSV-writing loop. *)

From Stdlib Require Import ZArith Lia Ascii String DecimalString DecimalZ.
From Equations Require Import Equations.
From stdpp Require Import base option list strings gmap.

(** ** Python exceptions and fallible results *)

Inductive exn : Type :=
| ZeroDivisionError
| IndexError
| KeyError
| ValueError
| TypeError
| URLError            (* any failure of [request.urlopen] *)
| FileExistsError
| NotADirectoryError
| FileNotFoundError
| IsADirectoryError.

Inductive result (A : Type) : Type :=
| Ok (a : A)
| Raise (e : exn).
Arguments Ok {A} a.
Arguments Raise {A} e.

#[global] Instance result_ret : MRet result := fun A a => Ok a.
#[global] Instance result_bind : MBind result := fun A B k r =>
  match r with
  | Ok a => k a
  | Raise e => Raise e
  end.

(** A [for] loop whose body may raise: the first exception ends the loop. *)
Fixpoint for_each {A S} (body : S -> A -> result S) (l : list A) (s : S)
  : result S :=
  match l with
  | [] => Ok s
  | a :: l' => s' ← body s a; for_each body l' s'
  end.

(** ** clean_tags (scraper.py, lines 109-126) *)

Definition newline : ascii := "010"%char.

(** The tail [.*?>] of the pattern [<.*?>], tried just after a [<]: the
    lazy star takes the fewest characters, [.] does not match a newline
    (the pattern is compiled without [re.DOTALL]), so the match ends at the
    first [>] provided no newline comes before it.  The result is the text
    left after the match. *)
Fixpoint tag_close (s : string) : option string :=
  match s with
  | EmptyString => None
  | String c r =>
      if Ascii.eqb c ">" then Some r
      else if Ascii.eqb c newline then None
      else tag_close r
  end.

Lemma tag_close_shorter (s rest : string) :
  tag_close s = Some rest -> String.length rest <= String.length s.
Proof.
  revert rest. induction s as [|c r IH]; intros rest; simpl; [discriminate|].
  destruct (Ascii.eqb c ">").
  - intros [= ->]. lia.
  - destruct (Ascii.eqb c newline); [discriminate|].
    intros H. apply IH in H. lia.
Qed.

Definition inspect {A} (a : A) : {b : A | a = b} := exist _ a eq_refl.

(** [re.sub(tag, '', s)] with [tag = re.compile('<.*?>')]: scan from the
    left; at a [<] that starts a match drop the match and go on after it,
    otherwise keep the character and go on with the next one. *)
Equations? sub_tag (s : string) : string by wf (String.length s) lt :=
  sub_tag EmptyString := EmptyString;
  sub_tag (String c r) with Ascii.eqb c "<" := {
    | true with inspect (tag_close r) := {
        | exist _ (Some rest) _ := sub_tag rest;
        | exist _ None _ := String c (sub_tag r) };
    | false := String c (sub_tag r) }.
Proof.
  all: simpl; try lia.
  match goal with H : tag_close _ = Some _ |- _ =>
    apply tag_close_shorter in H end.
  lia.
Qed.

(** [re.sub(newline, '', s)] with [newline = re.compile('\n')]. *)
Fixpoint sub_newline (s : string) : string :=
  match s with
  | EmptyString => EmptyString
  | String c r =>
      if Ascii.eqb c newline then sub_newline r
      else String c (sub_newline r)
  end.

(** [clean_tags(item)]; the argument is [str(item)], the markup of the node. *)
Definition clean_tags (item : string) : string :=
  sub_newline (sub_tag item).

(** [re.search('<.*?>', s) is not None]: some [<] of [s] starts a match. *)
Fixpoint tag_search (s : string) : bool :=
  match s with
  | EmptyString => false
  | String c r =>
      (Ascii.eqb c "<" && bool_decide (tag_close r <> None)) || tag_search r
  end.

(** ['\n' in s]. *)
Fixpoint has_newline (s : string) : bool :=
  match s with
  | EmptyString => false
  | String c r => Ascii.eqb c newline || has_newline r
  end.

Definition nl : string := String newline EmptyString.

(** ** scrape_tables (scraper.py, lines 68-107) *)

(** One element of [html_tree.findAll("table", ["wikitable"])], seen through
    the two queries the code makes on it: [findAll("th")] and
    [findAll("td")], each node given by its markup [str(node)]. *)
Record wikitable : Type := Wikitable {
  th : list string;
  td : list string
}.

(** [a // b] on lengths. *)
Definition floordiv (a b : nat) : result nat :=
  if decide (b = 0) then Raise ZeroDivisionError else Ok (a / b).

(** [l[i]] for [i >= 0]. *)
Definition getitem {A} (l : list A) (i : nat) : result A :=
  match l !! i with
  | Some a => Ok a
  | None => Raise IndexError
  end.

(** [enumerate(l)]. *)
Definition enumerate {A} (l : list A) : list (nat * A) :=
  zip (seq 0 (length l)) l.

(** [pandas.DataFrame]: the column labels and the rows; a cell is a string
    or the missing value [None]. *)
Record DataFrame : Type := mkDataFrame {
  columns : list string;
  values : list (list (option string))
}.

(** [pd.DataFrame(data, columns=cols)] on a list of lists of strings: short
    rows are filled with the missing value up to the longest row, and the
    number of labels must be that width ([ValueError] otherwise); with no
    row at all the labels are taken as they are. *)
Definition pad (width : nat) (row : list string) : list (option string) :=
  (Some <$> row) ++ replicate (width - length row) None.

Definition pd_DataFrame (data : list (list string)) (cols : list string)
  : result DataFrame :=
  match data with
  | [] => Ok (mkDataFrame cols [])
  | _ =>
      let width := max_list (length <$> data) in
      if decide (width = length cols)
      then Ok (mkDataFrame cols (pad width <$> data))
      else Raise ValueError
  end.

(** Body of [for index, heading in enumerate(headings)] (lines 99-103); the
    state is [(headings_list, contents_row)]. *)
Definition cell_step (headings contents : list string) (row_number : nat)
    (st : list string * list string) (ih : nat * string)
  : result (list string * list string) :=
  let '(headings_list, contents_row) := st in
  let '(index, heading) := ih in
  let headings_list :=
    if decide (length headings_list < length headings)
    then headings_list ++ [clean_tags heading]
    else headings_list in
  let content_index := row_number * length headings + index in
  c ← getitem contents content_index;
  Ok (headings_list, contents_row ++ [clean_tags c]).

(** Body of [for row_number in range(number_of_rows)] (lines 96-104); the
    state is [(headings_list, contents_list)]. *)
Definition row_step (headings contents : list string)
    (st : list string * list (list string)) (row_number : nat)
  : result (list string * list (list string)) :=
  let '(headings_list, contents_list) := st in
  '(headings_list, contents_row) ←
    for_each (cell_step headings contents row_number) (enumerate headings)
             (headings_list, []);
  Ok (headings_list, contents_list ++ [contents_row]).

(** Body of [for wikitable in wikitables] (lines 91-104). *)
Definition table_step (st : list string * list (list string))
    (t : wikitable) : result (list string * list (list string)) :=
  let headings := th t in
  let contents := td t in
  number_of_rows ← floordiv (length contents) (length headings);
  for_each (row_step headings contents) (seq 0 number_of_rows) st.

(** Lines 83 and 90-107: the extraction from the tables found on a page. *)
Definition scrape_page (wikitables : list wikitable) : result DataFrame :=
  '(headings_list, contents_list) ← for_each table_step wikitables ([], []);
  pd_DataFrame contents_list headings_list.

(** ** get_perpetrators (scraper.py, lines 128-144) *)

(** An element of [df[name].values.tolist()]: a cell when one column has
    the label, the list of the row's cells under that label when several
    columns have it ([df[name]] is then a frame, not a series). *)
Inductive pyobj : Type :=
| Scalar (c : option string)
| Nested (cs : list (option string)).

Fixpoint positions (name : string) (cols : list string) (i : nat) : list nat :=
  match cols with
  | [] => []
  | c :: cols' =>
      if decide (c = name) then i :: positions name cols' (S i)
      else positions name cols' (S i)
  end.

Definition cell_at (row : list (option string)) (i : nat) : option string :=
  default None (row !! i).

(** [df[name].values.tolist()]. *)
Definition column_tolist (df : DataFrame) (name : string)
  : result (list pyobj) :=
  match positions name (columns df) 0 with
  | [] => Raise KeyError
  | [i] => Ok ((fun row => Scalar (cell_at row i)) <$> values df)
  | ps => Ok ((fun row => Nested (cell_at row <$> ps)) <$> values df)
  end.

(** The tally: a [dict] from value to count; the key [None] is the missing
    value. *)
Abbreviation tally := (gmap (option string) nat).

Definition count_up (k : option string) (c : tally) : tally :=
  <[k := S (default 0 (c !! k))]> c.

(** [dict(Counter(l))]: a list is not hashable. *)
Definition Counter (l : list pyobj) : result tally :=
  for_each (fun c x =>
              match x with
              | Scalar k => Ok (count_up k c)
              | Nested _ => Raise TypeError
              end) l ∅.

(** What one frame adds to [perpetrators] (lines 139-142). *)
Definition perpetrators_of (df : DataFrame) : result (list pyobj) :=
  if decide ("Perpetrator" ∈ columns df)
  then column_tolist df "Perpetrator"
  else if decide ("Perpetrators" ∈ columns df)
  then column_tolist df "Perpetrators"
  else Ok [].

(** A [dict] with string keys, in insertion order. *)
Abbreviation dict V := (list (string * V)) (only parsing).

Fixpoint dict_set {V} (k : string) (v : V) (d : dict V) : dict V :=
  match d with
  | [] => [(k, v)]
  | (k', v') :: d' =>
      if decide (k' = k) then (k, v) :: d' else (k', v') :: dict_set k v d'
  end.

(** Body of [for df in self.data.values()] (lines 139-142). *)
Definition collect_step (perpetrators : list pyobj) (df : DataFrame)
  : result (list pyobj) :=
  vs ← perpetrators_of df; Ok (perpetrators ++ vs).

Definition collect_perpetrators (data : dict DataFrame)
  : result (list pyobj) :=
  for_each collect_step data.*2 [].

Definition get_perpetrators (data : dict DataFrame) : result tally :=
  perpetrators ← collect_perpetrators data;
  Counter perpetrators.

(** ** The file system, as [Path.mkdir] and [DataFrame.to_csv] see it *)

Inductive node : Type :=
| Dir
| File (content : string).

(** A path is its list of components below the working directory; the
    empty path is the working directory itself, which is a directory. *)
Abbreviation path := (list string) (only parsing).
Abbreviation filesystem := (gmap path node).

Definition stat (fs : filesystem) (p : path) : option node :=
  match p with
  | [] => Some Dir
  | _ => fs !! p
  end.

(** [os.mkdir(p)]. *)
Definition os_mkdir (fs : filesystem) (parent : path) (name : string)
  : result filesystem :=
  match stat fs parent with
  | None => Raise FileNotFoundError
  | Some (File _) => Raise NotADirectoryError
  | Some Dir =>
      match fs !! (parent ++ [name]) with
      | Some _ => Raise FileExistsError
      | None => Ok (<[parent ++ [name] := Dir]> fs)
      end
  end.

(** [Path(p).mkdir(parents=True, exist_ok=True)], with the path given as
    the parent already walked and the components still to come: a missing
    directory is made, parents first; an existing directory is left as it
    is; anything else in the way raises. *)
Fixpoint mkdir_from (fs : filesystem) (done : path) (todo : path)
  : result filesystem :=
  match todo with
  | [] => Ok fs
  | name :: todo' =>
      match fs !! (done ++ [name]) with
      | Some Dir => mkdir_from fs (done ++ [name]) todo'
      | Some (File _) =>
          Raise (match todo' with [] => FileExistsError
                             | _ => NotADirectoryError end)
      | None =>
          fs' ← os_mkdir fs done name;
          mkdir_from fs' (done ++ [name]) todo'
      end
  end.

Definition mkdir_parents_exist_ok (fs : filesystem) (p : path)
  : result filesystem :=
  mkdir_from fs [] p.

(** [open(p, 'w')], write, close: what [df.to_csv(p)] does to the files. *)
Definition write_text (fs : filesystem) (p : path) (text : string)
  : result filesystem :=
  match stat fs (removelast p) with
  | None => Raise FileNotFoundError
  | Some (File _) => Raise NotADirectoryError
  | Some Dir =>
      match stat fs p with
      | Some Dir => Raise IsADirectoryError
      | _ => Ok (<[p := File text]> fs)
      end
  end.

(** ** The constructor (scraper.py, lines 33-66) *)

(** [str(n)] for an [int]. *)
Definition py_str (n : Z) : string := NilZero.string_of_int (Z.to_int n).

(** [range(a, b)]. *)
Definition py_range (a b : Z) : list Z := seqZ a (b - a).

Record WikiScraper : Type := mkWikiScraper {
  data : dict DataFrame;
  perpetrators : tally
}.

Definition prefix : string :=
  "https://en.wikipedia.org/wiki/List_of_terrorist_incidents_in_".

Definition default_start_year : Z := 1999.
Definition default_stop_year : Z := 2019.
Definition default_save_csv : bool := true.
Definition default_csv_path : string := "csv_data".

Section Scraper.

(** [request.urlopen(url)] followed by the [html.parser] of BeautifulSoup
    and [findAll("table", ["wikitable"])]: the matched tables of the page
    at [url], or the exception of the request. *)
Variable wikitables_at : string -> result (list wikitable).

(** [phobia.storage.get], which resolves the name of the output directory;
    its module is not part of the sources at hand. *)
Variable storage_get : string -> path.

(** The text that [DataFrame.to_csv] writes for a frame. *)
Variable to_csv : DataFrame -> string.

Definition scrape_tables (year : Z) : result DataFrame :=
  wikitables ← wikitables_at (prefix +:+ py_str year);
  scrape_page wikitables.

(** Body of [for year in range(start_year, stop_year + 1)] (line 54). *)
Definition year_step (data : dict DataFrame) (year : Z)
  : result (dict DataFrame) :=
  df ← scrape_tables year; Ok (dict_set (py_str year) df data).

(** Lines 52-56. *)
Definition build_data (start_year stop_year : Z) : result (dict DataFrame) :=
  for_each year_step (py_range start_year (stop_year + 1)) [].

(** Lines 63-66, run on a file system: the result is the file system
    reached and whether the loop ended or raised; when a call raises, the
    file system is the one that call started from. *)
Fixpoint save_all (csv_path : path) (items : dict DataFrame)
    (fs : filesystem) : filesystem * result () :=
  match items with
  | [] => (fs, Ok ())
  | (year, df) :: items' =>
      match mkdir_parents_exist_ok fs csv_path with
      | Raise e => (fs, Raise e)
      | Ok fs1 =>
          let file_path := csv_path ++ [year +:+ ".csv"] in
          match write_text fs1 file_path (to_csv df) with
          | Raise e => (fs1, Raise e)
          | Ok fs2 => save_all csv_path items' fs2
          end
      end
  end.

(** [WikiScraper(start_year, stop_year, save_csv, csv_path)]. *)
Definition init (start_year stop_year : Z) (save_csv : bool)
    (csv_path : string) (fs : filesystem) : filesystem * result WikiScraper :=
  match build_data start_year stop_year with
  | Raise e => (fs, Raise e)
  | Ok data =>
      match get_perpetrators data with
      | Raise e => (fs, Raise e)
      | Ok perpetrators =>
          let self := mkWikiScraper data perpetrators in
          let csv_path := storage_get csv_path in
          if save_csv
          then
            let '(fs', r) := save_all csv_path data fs in
            (fs', _ ← r; Ok self)
          else (fs, Ok self)
      end
  end.

End Scraper.

(** * Closed forms of the loops, and the data of the examples *)

(** Closed forms of the loops of [scrape_tables]: the rows one table adds
    to [contents_list], and what it adds to [headings_list]. *)
Definition number_of_rows (t : wikitable) : nat :=
  length (td t) / length (th t).

Definition table_row (t : wikitable) (r : nat) : list string :=
  clean_tags <$> take (length (th t)) (drop (r * length (th t)) (td t)).

Definition table_rows (t : wikitable) : list (list string) :=
  table_row t <$> seq 0 (number_of_rows t).

Definition capture (headings_list : list string) (t : wikitable)
  : list string :=
  if decide (number_of_rows t = 0) then headings_list
  else headings_list ++
       (clean_tags <$> take (length (th t) - length headings_list) (th t)).

Definition th_date : string := "<th>Date" +:+ nl +:+ "</th>".
Definition th_perp : string := "<th>Perpetrator" +:+ nl +:+ "</th>".
Definition th_dead : string := "<th>Dead" +:+ nl +:+ "</th>".

Definition table_2001 : wikitable :=
  Wikitable [th_date; th_perp]
            ["<td>2001-09-11</td>"; "<td><a href=x>Al-Qaeda</a></td>";
             "<td>2005-07-07</td>"; "<td>Al-Qaeda</td>"; "<td>2006</td>"].

Definition table_wide : wikitable :=
  Wikitable [th_perp; th_dead; th_date]
            ["<td>ETA</td>"; "<td>3</td>"; "<td>2001-11-06</td>"].

Definition table_total : wikitable :=
  Wikitable ["<th>Total</th>"] ["<td>2</td>"].

Definition entry (table : Z -> DataFrame) (year : Z) : string * DataFrame :=
  (py_str year, table year).

Definition table_headless : wikitable := Wikitable [] ["<td>x</td>"].

Definition web (url : string) : result (list wikitable) :=
  if decide (url = prefix +:+ "2000") then Ok [table_2001]
  else if decide (url = prefix +:+ "2001") then Ok []
  else if decide (url = prefix +:+ "2002") then Ok [table_wide; table_headless]
  else Raise URLError.

Definition in_cwd (name : string) : list string := [name].

(** A stand-in for the serialiser: the labels and the cells, comma
    separated, one line per row, without the quoting rules of the CSV
    format. *)
Definition csv_line (cells : list string) : string :=
  foldr (fun c acc => "," +:+ c +:+ acc) nl cells.

Definition plain_csv (df : DataFrame) : string :=
  csv_line (columns df) +:+
  foldr String.append ""
        (imap (fun i row => py_str (Z.of_nat i) +:+ csv_line (default "" <$> row))
              (values df)).

Definition frame_2000 : DataFrame :=
  mkDataFrame ["Date"; "Perpetrator"]
    [[Some "2001-09-11"; Some "Al-Qaeda"];
     [Some "2005-07-07"; Some "Al-Qaeda"]].

Definition frame_empty : DataFrame := mkDataFrame [] [].

Definition frames_2000_2001 (y : Z) : DataFrame :=
  if decide (y = 2000%Z) then frame_2000 else frame_empty.

(** The label [get_perpetrators] looks up in a frame, if any. *)
Definition selected_label (df : DataFrame) : option string :=
  if decide ("Perpetrator" ∈ columns df) then Some "Perpetrator"
  else if decide ("Perpetrators" ∈ columns df) then Some "Perpetrators"
  else None.

(** The cells of the first column labelled [name], top to bottom. *)
Definition column_values (df : DataFrame) (name : string)
  : list (option string) :=
  match positions name (columns df) 0 with
  | [] => []
  | i :: _ => (fun row => cell_at row i) <$> values df
  end.

Definition selected_values (df : DataFrame) : list (option string) :=
  match selected_label df with
  | Some name => column_values df name
  | None => []
  end.

(** The label occurs once among the columns. *)
Definition labelled_once (name : string) (df : DataFrame) : Prop :=
  exists i, positions name (columns df) 0 = [i].

Definition occurrences (k : option string) (ks : list (option string)) : nat :=
  length (filter (fun x => x = k) ks).

Definition count_all (ks : list (option string)) (c : gmap (option string) nat)
  : gmap (option string) nat :=
  fold_left (fun c k => count_up k c) ks c.

Definition frame_isis : DataFrame :=
  mkDataFrame ["Date"; "Perpetrator"]
    [[Some "2014-06-10"; Some "ISIS"]; [Some "2014-08-03"; Some "ISIS"]].

Definition frame_taliban : DataFrame :=
  mkDataFrame ["Perpetrator"; "Dead"] [[Some "Taliban"; Some "12"]].

Definition frame_both : DataFrame :=
  mkDataFrame ["Perpetrators"; "Dead"; "Perpetrator"]
    [[Some "ETA, GRAPO"; Some "3"; Some "ETA"];
     [Some "unknown"; Some "1"; None]].

(** The directories on the way to [done ++ todo], below [done]. *)
Fixpoint ancestors (done todo : list string) : list (list string) :=
  match todo with
  | [] => []
  | name :: todo' => (done ++ [name]) :: ancestors (done ++ [name]) todo'
  end.

(** The file system with all of them present as directories. *)
Definition made (fs : gmap (list string) node) (dirs : list (list string))
  : gmap (list string) node :=
  fold_left (fun fs q => <[q := Dir]> fs) dirs fs.

Definition csv_file (dir : list string) (year : string) : list string :=
  dir ++ [year +:+ ".csv"].

(** The file system after the writing loop has run over [items]. *)
Definition written (to_csv : DataFrame -> string) (dir : list string)
    (items : list (string * DataFrame)) (fs : gmap (list string) node)
  : gmap (list string) node :=
  fold_left (fun fs kd =>
               <[csv_file dir kd.1 := File (to_csv kd.2)]>
                 (made fs (ancestors [] dir)))
            items fs.

(** What the loop needs of the file system: no regular file on the way to
    the directory, no directory where a file is to be written. *)
Definition way_clear (dir : list string) (fs : gmap (list string) node)
  : Prop :=
  forall q c, q ∈ ancestors [] dir -> fs !! q <> Some (File c).

Definition files_free (dir : list string) (years : list string)
    (fs : gmap (list string) node) : Prop :=
  forall year, year ∈ years -> fs !! csv_file dir year <> Some Dir.

Definition data_2000_2001 : list (string * DataFrame) :=
  [("2000", frame_2000); ("2001", frame_empty)].

Definition scraper_2000_2001 : WikiScraper :=
  mkWikiScraper data_2000_2001 {[ Some "Al-Qaeda" := 2 ]}.

(** A file system where the directory and one of the files are there
    already. *)
Definition fs_old : gmap (list string) node :=
  <[ ["csv_data"; "2000.csv"] := File "old" ]> (<[ ["csv_data"] := Dir ]> ∅).

(** The characters of a text, in order. *)
Definition chars (s : string) : list ascii := list_ascii_of_string s.

(** The widest row a table adds: its header count if it has a complete
    row. *)
Definition table_width (t : wikitable) : nat :=
  if decide (number_of_rows t = 0) then 0 else length (th t).

(** What [df[name].values.tolist()] holds: scalars, or lists. *)
Definition is_nested (x : pyobj) : bool :=
  match x with
  | Scalar _ => false
  | Nested _ => true
  end.

Definition scalar_of (x : pyobj) : option (option string) :=
  match x with
  | Scalar k => Some k
  | Nested _ => None
  end.

(** The label looked up in the frame is on several columns, and there is a
    row to read. *)
Definition ambiguous (df : DataFrame) : Prop :=
  exists name, selected_label df = Some name /\
               2 <= length (positions name (columns df) 0) /\
               values df <> [].

(** What a frame adds to [perpetrators]. *)
Definition objects_of (df : DataFrame) : list pyobj :=
  match perpetrators_of df with
  | Ok vs => vs
  | Raise _ => []
  end.

(** The cell of the table under header [i] in row [r], cleaned. *)
Definition table_cell (t : wikitable) (i r : nat) : option string :=
  clean_tags <$> td t !! (r * length (th t) + i).

(** The frame of a year, when the year can be scraped. *)
Definition frame_of (wikitables_at : string -> result (list wikitable))
    (year : Z) : DataFrame :=
  match scrape_tables wikitables_at year with
  | Ok df => df
  | Raise _ => mkDataFrame [] []
  end.

(** The frame of a page with a second, wider table whose first header is
    "Perpetrator" again. *)
Definition frame_twice : DataFrame :=
  mkDataFrame ["Date"; "Perpetrator"; "Perpetrator"]
    [[Some "2001-09-11"; Some "Al-Qaeda"; None];
     [Some "2005-07-07"; Some "Al-Qaeda"; None];
     [Some "ETA"; Some "3"; Some "2001-11-06"]].

(** A web whose every page holds these two tables. *)
Definition web_twice (url : string) : result (list wikitable) :=
  Ok [table_2001; table_wide].

(** A web with an empty page for 2000, a page with one table for 2001, and
    no answer for any other year. *)
Definition web_gap (url : string) : result (list wikitable) :=
  if decide (url = prefix +:+ "2000") then Ok []
  else if decide (url = prefix +:+ "2001") then Ok [table_2001]
  else Raise URLError.

(** * Properties *)

(** ** The tag cleaner *)

Example ex1 : clean_tags ("<b>3</b>" +:+ nl) = "3".
Proof. reflexivity. Qed.

Example ex2 : clean_tags ("<td><!-- a" +:+ nl +:+ "b -->x</td>") = "<!-- ab -->x".
Proof. reflexivity. Qed.

Example ex3 : clean_tags "<!-- ab -->x" = "x".
Proof. reflexivity. Qed.


Lemma sub_tag_cons (c : ascii) (r : string) :
  sub_tag (String c r) =
  if Ascii.eqb c "<"
  then match tag_close r with
       | Some rest => sub_tag rest
       | None => String c (sub_tag r)
       end
  else String c (sub_tag r).
Proof.
  simp sub_tag. destruct (Ascii.eqb c "<"); simpl; [|reflexivity].
  destruct (tag_close r); reflexivity.
Qed.

Lemma sub_newline_no_newline (s : string) :
  has_newline (sub_newline s) = false.
Proof.
  induction s as [|c r IH]; simpl; [reflexivity|].
  destruct (Ascii.eqb c newline) eqn:E; simpl; [exact IH|].
  rewrite E. exact IH.
Qed.

Lemma clean_tags_no_newline (item : string) :
  has_newline (clean_tags item) = false.
Proof. apply sub_newline_no_newline. Qed.

Lemma sub_newline_id (s : string) :
  has_newline s = false -> sub_newline s = s.
Proof.
  induction s as [|c r IH]; simpl; [reflexivity|].
  destruct (Ascii.eqb c newline); simpl; [discriminate|].
  intros H. rewrite IH by exact H. reflexivity.
Qed.

Lemma sub_tag_id (s : string) :
  tag_search s = false -> sub_tag s = s.
Proof.
  induction s as [|c r IH]; [reflexivity|].
  rewrite sub_tag_cons. cbn [tag_search].
  destruct (Ascii.eqb c "<"); cbn [andb orb].
  - destruct (tag_close r) as [rest|].
    + rewrite bool_decide_eq_true_2 by discriminate. discriminate.
    + rewrite bool_decide_eq_false_2 by congruence.
      cbn [orb]. intros H. rewrite IH by exact H. reflexivity.
  - intros H. rewrite IH by exact H. reflexivity.
Qed.

(** A [<] that starts no match in [s] starts none in [sub_tag s] either:
    the newline (or the end of the text) that stops the match is kept. *)
Lemma tag_close_sub_tag (s : string) :
  tag_close s = None -> tag_close (sub_tag s) = None.
Proof.
  induction s as [|c r IH]; [reflexivity|].
  rewrite sub_tag_cons. simpl.
  destruct (Ascii.eqb c ">") eqn:Egt; [discriminate|].
  destruct (Ascii.eqb c newline) eqn:Enl.
  - intros _. apply Ascii.eqb_eq in Enl. subst c. reflexivity.
  - intros H. rewrite H.
    destruct (Ascii.eqb c "<"); simpl; rewrite Egt, Enl; exact (IH H).
Qed.

(** The first substitution leaves no match of the pattern behind. *)
Lemma sub_tag_no_tag (s : string) : tag_search (sub_tag s) = false.
Proof.
  funelim (sub_tag s); simp sub_tag; cbn [tag_search];
    try reflexivity; try assumption.
  - rewrite Heq. assumption.
  - rewrite tag_close_sub_tag by assumption.
    rewrite bool_decide_eq_false_2 by congruence.
    rewrite Heq. assumption.
Qed.

(** Cleaning a text with no match of the pattern and no newline returns it
    unchanged. *)
Lemma clean_tags_fixed_point (s : string) :
  tag_search s = false -> has_newline s = false -> clean_tags s = s.
Proof.
  intros Ht Hn. unfold clean_tags.
  rewrite sub_tag_id by exact Ht. apply sub_newline_id, Hn.
Qed.

(** The tag matched at a [<] holds no newline, so dropping it drops none. *)
Lemma tag_close_has_newline (s rest : string) :
  tag_close s = Some rest -> has_newline rest = has_newline s.
Proof.
  revert rest. induction s as [|c r IH]; intros rest; simpl; [discriminate|].
  destruct (Ascii.eqb c ">") eqn:Egt.
  - intros [= ->]. destruct (Ascii.eqb c newline) eqn:Enl; [|reflexivity].
    apply Ascii.eqb_eq in Enl. subst c. discriminate.
  - destruct (Ascii.eqb c newline); [discriminate|]. simpl. apply IH.
Qed.

Lemma sub_tag_has_newline (s : string) :
  has_newline (sub_tag s) = has_newline s.
Proof.
  funelim (sub_tag s); simp sub_tag; cbn [has_newline];
    try reflexivity; try congruence.
  - rewrite H. symmetry.
    destruct (Ascii.eqb c newline) eqn:Enl.
    + apply Ascii.eqb_eq in Enl. subst c. discriminate.
    + simpl. symmetry. apply tag_close_has_newline. assumption.
Qed.

(** On a text without newlines the cleaner does remove every tag, and
    cleaning twice is cleaning once. *)
Lemma clean_tags_single_line (s : string) :
  has_newline s = false ->
  tag_search (clean_tags s) = false /\ clean_tags (clean_tags s) = clean_tags s.
Proof.
  intros Hn.
  assert (E : clean_tags s = sub_tag s).
  { apply sub_newline_id. rewrite sub_tag_has_newline. exact Hn. }
  rewrite E. split; [apply sub_tag_no_tag|].
  apply clean_tags_fixed_point; [apply sub_tag_no_tag|].
  rewrite sub_tag_has_newline. exact Hn.
Qed.

(** C2. The cleaner is to leave no tag and no newline in its result.  It
    leaves no newline, but a tag that holds a newline is not matched by the
    pattern, and once the newlines are taken out the result holds a tag: a
    table cell with a comment that runs over two lines is cleaned to that
    comment followed by the text. *)
Theorem clean_tags_keeps_tag_over_newline :
  let item := "<td><!-- a" +:+ nl +:+ "b -->x</td>" in
  clean_tags item = "<!-- ab -->x" /\
  tag_search (clean_tags item) = true /\
  has_newline (clean_tags item) = false.
Proof. vm_compute. repeat split; reflexivity. Qed.

(** C7. Cleaning twice is to be cleaning once.  On the same cell the first
    cleaning leaves the comment and the second removes it. *)
Theorem clean_tags_twice_differs :
  let item := "<td><!-- a" +:+ nl +:+ "b -->x</td>" in
  clean_tags item = "<!-- ab -->x" /\
  clean_tags (clean_tags item) = "x" /\
  clean_tags (clean_tags item) <> clean_tags item.
Proof. vm_compute. repeat split; try reflexivity. discriminate. Qed.

(** ** The table extractor *)

Lemma for_each_app {A S} (body : S -> A -> result S) (l1 l2 : list A) (s : S) :
  for_each body (l1 ++ l2) s = (s' ← for_each body l1 s; for_each body l2 s').
Proof.
  revert s. induction l1 as [|a l1 IH]; intros s; simpl; [reflexivity|].
  destruct (body s a); simpl; [apply IH|reflexivity].
Qed.

Lemma cell_step_at (headings contents : list string) (r k : nat)
    (h c : string) (hl row : list string) :
  contents !! (r * length headings + k) = Some c ->
  cell_step headings contents r (hl, row) (k, h)
  = Ok (if decide (length hl < length headings)
        then hl ++ [clean_tags h] else hl,
        row ++ [clean_tags c]).
Proof. intros Hc. unfold cell_step, getitem. rewrite Hc. reflexivity. Qed.

Lemma cells_loop (headings contents : list string) (r : nat)
    (hs : list string) (k : nat) (hl row : list string) :
  r * length headings + k + length hs <= length contents ->
  for_each (cell_step headings contents r) (zip (seq k (length hs)) hs)
           (hl, row)
  = Ok (hl ++ (clean_tags <$> take (length headings - length hl) hs),
        row ++ (clean_tags <$>
                take (length hs) (drop (r * length headings + k) contents))).
Proof.
  revert k hl row. induction hs as [|h hs IH]; intros k hl row Hlen.
  - simpl. rewrite take_nil, !app_nil_r. reflexivity.
  - cbn [length seq zip zip_with for_each]. cbn [length] in Hlen.
    destruct (lookup_lt_is_Some_2 contents (r * length headings + k))
      as [c Hc]; [lia|].
    rewrite (cell_step_at _ _ _ _ _ _ _ _ Hc). cbn [mbind result_bind].
    rewrite (drop_S _ _ _ Hc). cbn [take fmap list_fmap].
    specialize (IH (S k)).
    replace (r * length headings + S k) with (S (r * length headings + k))
      in IH by lia.
    destruct (decide (length hl < length headings)) as [Hlt|Hge].
    + rewrite IH by lia. rewrite length_app. cbn [length].
      destruct (length headings - length hl) as [|d] eqn:Ed; [lia|].
      replace (length headings - (length hl + 1)) with d by lia.
      cbn [take fmap list_fmap]. rewrite <- !app_assoc. reflexivity.
    + rewrite IH by lia.
      replace (length headings - length hl) with 0 by lia.
      rewrite !take_0. cbn [fmap list_fmap].
      rewrite <- !app_assoc. reflexivity.
Qed.

Lemma row_loop_step (t : wikitable) (hl : list string)
    (cl : list (list string)) (r : nat) :
  r < number_of_rows t ->
  row_step (th t) (td t) (hl, cl) r
  = Ok (hl ++ (clean_tags <$> take (length (th t) - length hl) (th t)),
        cl ++ [table_row t r]).
Proof.
  intros Hr. unfold row_step, enumerate, number_of_rows in *.
  assert (Hn : length (th t) <> 0).
  { intros E. rewrite E in Hr. simpl in Hr. lia. }
  assert (Hb : r * length (th t) + length (th t) <= length (td t)).
  { pose proof (Nat.Div0.mul_div_le (length (td t)) (length (th t))). nia. }
  rewrite cells_loop by lia. cbn [mbind result_bind].
  rewrite Nat.add_0_r. reflexivity.
Qed.

Lemma capture_once_length (t : wikitable) (hl : list string) :
  length (hl ++ (clean_tags <$> take (length (th t) - length hl) (th t)))
  = length hl `max` length (th t).
Proof. rewrite length_app, length_fmap, length_take. lia. Qed.

Lemma rows_loop (t : wikitable) (n k : nat) (hl : list string)
    (cl : list (list string)) :
  k + n <= number_of_rows t ->
  for_each (row_step (th t) (td t)) (seq k n) (hl, cl)
  = Ok (if decide (n = 0) then hl
        else hl ++ (clean_tags <$> take (length (th t) - length hl) (th t)),
        cl ++ (table_row t <$> seq k n)).
Proof.
  revert k hl cl. induction n as [|n IH]; intros k hl cl Hk.
  - simpl. rewrite app_nil_r. reflexivity.
  - cbn [seq for_each]. rewrite row_loop_step by lia.
    cbn [mbind result_bind]. rewrite IH by lia. clear IH.
    destruct (decide (S n = 0)) as [|_]; [lia|].
    cbn [fmap list_fmap]. rewrite <- (app_assoc cl). f_equal. f_equal.
    destruct (decide (n = 0)); [reflexivity|].
    rewrite capture_once_length.
    replace (length (th t) - length hl `max` length (th t)) with 0 by lia.
    rewrite take_0. apply app_nil_r.
Qed.

Lemma table_step_ok (t : wikitable) (hl : list string)
    (cl : list (list string)) :
  th t <> [] ->
  table_step (hl, cl) t = Ok (capture hl t, cl ++ table_rows t).
Proof.
  intros Hth. unfold table_step, floordiv.
  destruct (decide (length (th t) = 0)) as [E|_].
  { destruct (th t); [congruence|discriminate]. }
  cbn [mbind result_bind]. fold (number_of_rows t).
  rewrite rows_loop by lia. reflexivity.
Qed.

Lemma table_step_zero_headers (t : wikitable)
    (st : list string * list (list string)) :
  th t = [] -> table_step st t = Raise ZeroDivisionError.
Proof. intros E. unfold table_step, floordiv. rewrite E. reflexivity. Qed.

(** The loop over the tables of a page: it ends normally when every table
    has a header cell, and raises [ZeroDivisionError] otherwise. *)
Lemma tables_loop_ok (pg : list wikitable) (hl : list string)
    (cl : list (list string)) :
  Forall (fun t => th t <> []) pg ->
  for_each table_step pg (hl, cl)
  = Ok (fold_left capture pg hl, cl ++ concat (table_rows <$> pg)).
Proof.
  intros H. revert hl cl. induction H as [|t pg Ht _ IH]; intros hl cl.
  - simpl. rewrite app_nil_r. reflexivity.
  - cbn [for_each]. rewrite table_step_ok by exact Ht.
    cbn [mbind result_bind]. rewrite IH.
    cbn [fmap list_fmap concat fold_left]. rewrite <- app_assoc. reflexivity.
Qed.

Lemma tables_loop_zero_headers (pg : list wikitable)
    (st : list string * list (list string)) :
  Exists (fun t => th t = []) pg ->
  for_each table_step pg st = Raise ZeroDivisionError.
Proof.
  intros H. revert st. induction H as [t pg Ht|t pg _ IH]; intros [hl cl].
  - cbn [for_each]. rewrite table_step_zero_headers by exact Ht. reflexivity.
  - cbn [for_each]. destruct (th t) eqn:E.
    + rewrite table_step_zero_headers by exact E. reflexivity.
    + rewrite table_step_ok by congruence. cbn [mbind result_bind]. apply IH.
Qed.

Lemma table_row_length (t : wikitable) (r : nat) :
  r < number_of_rows t -> length (table_row t r) = length (th t).
Proof.
  intros Hr. unfold table_row, number_of_rows in *.
  rewrite length_fmap, length_take, length_drop.
  pose proof (Nat.Div0.mul_div_le (length (td t)) (length (th t))). nia.
Qed.

Lemma table_rows_widths (t : wikitable) :
  Forall (fun row => length row = length (th t)) (table_rows t).
Proof.
  unfold table_rows. apply Forall_fmap, Forall_forall.
  intros r Hr. apply elem_of_seq in Hr. apply table_row_length. lia.
Qed.

Lemma table_rows_lookup (t : wikitable) (r i : nat) :
  r < number_of_rows t -> i < length (th t) ->
  exists cell,
    td t !! (r * length (th t) + i) = Some cell /\
    (table_rows t !! r) ≫= (fun row => row !! i) = Some (clean_tags cell).
Proof.
  intros Hr Hi.
  assert (Hb : r * length (th t) + length (th t) <= length (td t)).
  { unfold number_of_rows in Hr.
    pose proof (Nat.Div0.mul_div_le (length (td t)) (length (th t))). nia. }
  destruct (lookup_lt_is_Some_2 (td t) (r * length (th t) + i))
    as [cell Hc]; [lia|].
  exists cell. split; [exact Hc|].
  unfold table_rows. rewrite list_lookup_fmap, lookup_seq_lt by exact Hr.
  cbn. unfold table_row.
  rewrite list_lookup_fmap, lookup_take_lt, lookup_drop by exact Hi.
  rewrite Hc. reflexivity.
Qed.

Lemma concat_table_rows (t : wikitable) (n : nat) :
  n <= number_of_rows t ->
  concat (table_row t <$> seq 0 n)
  = clean_tags <$> take (n * length (th t)) (td t).
Proof.
  induction n as [|n IH]; intros Hn; [reflexivity|].
  rewrite seq_S, fmap_app, concat_app, IH by lia.
  cbn [fmap list_fmap concat]. rewrite app_nil_r. unfold table_row.
  rewrite <- fmap_app, take_take_drop. f_equal. f_equal. lia.
Qed.

Lemma pad_full (row : list string) : pad (length row) row = Some <$> row.
Proof.
  unfold pad. rewrite Nat.sub_diag. apply app_nil_r.
Qed.

Lemma max_list_app (l1 l2 : list nat) :
  max_list (l1 ++ l2) = max_list l1 `max` max_list l2.
Proof. induction l1 as [|n l1 IH]; simpl; [reflexivity|]. rewrite IH. lia. Qed.

Lemma max_list_same_width {A} (l : list (list A)) (n : nat) :
  Forall (fun row => length row = n) l -> l <> [] ->
  max_list (length <$> l) = n.
Proof.
  induction 1 as [|row l Hrow _ IH]; [congruence|]. intros _.
  cbn [fmap list_fmap max_list_with]. unfold id at 1. rewrite Hrow.
  destruct l as [|row' l]; [simpl; lia|].
  rewrite IH by discriminate. lia.
Qed.

Lemma max_list_table_rows (t : wikitable) :
  max_list (length <$> table_rows t)
  = if decide (number_of_rows t = 0) then 0 else length (th t).
Proof.
  assert (Hn : length (table_rows t) = number_of_rows t).
  { unfold table_rows. rewrite length_fmap, length_seq. reflexivity. }
  destruct (decide (number_of_rows t = 0)) as [E|E].
  - rewrite E in Hn. destruct (table_rows t); [reflexivity|discriminate].
  - apply max_list_same_width; [apply table_rows_widths|].
    intros E'. rewrite E' in Hn. simpl in Hn. congruence.
Qed.

Lemma capture_length (t : wikitable) (hl : list string) :
  length (capture hl t)
  = if decide (number_of_rows t = 0) then length hl
    else length hl `max` length (th t).
Proof.
  unfold capture. destruct (decide (number_of_rows t = 0)); [reflexivity|].
  apply capture_once_length.
Qed.

(** [headings_list] is always as long as the longest row collected. *)
Lemma widths_invariant (pg : list wikitable) (hl : list string)
    (cl : list (list string)) :
  length hl = max_list (length <$> cl) ->
  length (fold_left capture pg hl)
  = max_list (length <$> cl ++ concat (table_rows <$> pg)).
Proof.
  revert hl cl. induction pg as [|t pg IH]; intros hl cl Hinv.
  - simpl. rewrite app_nil_r. exact Hinv.
  - cbn [fold_left fmap list_fmap concat]. rewrite app_assoc.
    apply IH. rewrite fmap_app, max_list_app, capture_length,
      max_list_table_rows, <- Hinv.
    destruct (decide (number_of_rows t = 0)); lia.
Qed.

(** The extraction of a page all of whose tables have a header cell: the
    frame is built, with the captured labels and the padded rows. *)
Lemma scrape_page_ok (pg : list wikitable) :
  Forall (fun t => th t <> []) pg ->
  scrape_page pg
  = Ok (mkDataFrame (fold_left capture pg [])
          (pad (length (fold_left capture pg []))
             <$> concat (table_rows <$> pg))).
Proof.
  intros H. unfold scrape_page. rewrite tables_loop_ok by exact H.
  cbn [mbind result_bind app]. unfold pd_DataFrame.
  pose proof (widths_invariant pg [] [] eq_refl) as Hw. cbn [app] in Hw.
  destruct (concat (table_rows <$> pg)) as [|row rows] eqn:E; [reflexivity|].
  rewrite <- Hw. rewrite decide_True by reflexivity. reflexivity.
Qed.

Lemma scrape_page_zero_headers (pg : list wikitable) :
  Exists (fun t => th t = []) pg ->
  scrape_page pg = Raise ZeroDivisionError.
Proof.
  intros H. unfold scrape_page.
  rewrite tables_loop_zero_headers by exact H. reflexivity.
Qed.

Lemma scrape_page_single (t : wikitable) :
  th t <> [] ->
  scrape_page [t]
  = Ok (mkDataFrame (capture [] t)
          ((fun row : list string => Some <$> row) <$> table_rows t)).
Proof.
  intros Hth. rewrite scrape_page_ok by (constructor; [exact Hth|constructor]).
  cbn [fold_left fmap list_fmap concat]. rewrite app_nil_r.
  f_equal. f_equal. rewrite capture_length.
  destruct (decide (number_of_rows t = 0)) as [E|_].
  - unfold table_rows. rewrite E. reflexivity.
  - apply Forall_fmap_ext_1.
    eapply Forall_impl; [apply table_rows_widths|].
    intros row Hrow. cbv beta. cbn [length]. rewrite Nat.max_0_l, <- Hrow.
    apply pad_full.
Qed.

Lemma capture_stable (t : wikitable) (hl : list string) :
  number_of_rows t = 0 \/ length (th t) <= length hl -> capture hl t = hl.
Proof.
  intros H. unfold capture.
  destruct (decide (number_of_rows t = 0)) as [|Hn]; [reflexivity|].
  destruct H as [H|H]; [congruence|].
  replace (length (th t) - length hl) with 0 by lia.
  rewrite take_0. apply app_nil_r.
Qed.

Lemma capture_first (t : wikitable) :
  number_of_rows t <> 0 -> capture [] t = clean_tags <$> th t.
Proof.
  intros Hn. unfold capture. rewrite decide_False by exact Hn.
  cbn [length app]. rewrite Nat.sub_0_r, take_ge by lia. reflexivity.
Qed.

Lemma fold_capture_stable (pg : list wikitable) (hl : list string) :
  Forall (fun t => number_of_rows t = 0 \/ length (th t) <= length hl) pg ->
  fold_left capture pg hl = hl.
Proof.
  induction 1 as [|t pg Ht _ IH]; [reflexivity|].
  cbn [fold_left]. rewrite capture_stable by exact Ht. exact IH.
Qed.

(** C1. A matched table with N > 0 header cells and M content cells adds
    exactly M // N rows of N fields each; the field of row r under header i
    is the cleaned content cell r * N + i; the last M % N content cells are
    not used.  On a page with this one table these rows are the rows of the
    frame. *)
Theorem table_rows_row_major (t : wikitable) (headings_list : list string)
    (contents_list : list (list string)) :
  0 < length (th t) ->
  let N := length (th t) in
  let M := length (td t) in
  (exists headings_list',
     table_step (headings_list, contents_list) t
     = Ok (headings_list', contents_list ++ table_rows t)) /\
  length (table_rows t) = M / N /\
  Forall (fun row => length row = N) (table_rows t) /\
  (forall r i, r < M / N -> i < N ->
     exists cell,
       td t !! (r * N + i) = Some cell /\
       (table_rows t !! r) ≫= (fun row => row !! i) = Some (clean_tags cell)) /\
  concat (table_rows t) = clean_tags <$> take (M - M mod N) (td t) /\
  (exists df,
     scrape_page [t] = Ok df /\
     values df = (fun row : list string => Some <$> row) <$> table_rows t).
Proof.
  intros HN N M.
  assert (Hth : th t <> []) by (destruct (th t); [simpl in HN; lia|discriminate]).
  split; [eexists; apply table_step_ok, Hth|].
  split; [unfold table_rows; rewrite length_fmap, length_seq; reflexivity|].
  split; [apply table_rows_widths|].
  split; [intros r i; apply table_rows_lookup|].
  split.
  - unfold table_rows. rewrite concat_table_rows by reflexivity.
    f_equal. f_equal. unfold number_of_rows. fold N M.
    pose proof (Nat.div_mod_eq M N). nia.
  - eexists. split; [apply scrape_page_single, Hth|reflexivity].
Qed.

Lemma table_rows_row_major_witness :
  (exists headings_list',
     table_step ([], []) table_2001
     = Ok (headings_list', [] ++ table_rows table_2001)) /\
  length (table_rows table_2001) = 5 / 2 /\
  Forall (fun row => length row = 2) (table_rows table_2001) /\
  (forall r i, r < 5 / 2 -> i < 2 ->
     exists cell,
       td table_2001 !! (r * 2 + i) = Some cell /\
       (table_rows table_2001 !! r) ≫= (fun row => row !! i)
       = Some (clean_tags cell)) /\
  concat (table_rows table_2001)
  = clean_tags <$> take (5 - 5 mod 2) (td table_2001) /\
  (exists df,
     scrape_page [table_2001] = Ok df /\
     values df
     = (fun row : list string => Some <$> row) <$> table_rows table_2001).
Proof.
  apply (table_rows_row_major table_2001 [] []). simpl. lia.
Defined.

Example table_2001_frame :
  scrape_page [table_2001]
  = Ok (mkDataFrame ["Date"; "Perpetrator"]
          [[Some "2001-09-11"; Some "Al-Qaeda"];
           [Some "2005-07-07"; Some "Al-Qaeda"]]).
Proof. reflexivity. Qed.

(** Two tables on a page, the second wider than the first: the labels are
    those of the first table followed by the first label of the second. *)
Lemma columns_not_first_table :
  scrape_page [table_2001; table_wide]
  = Ok (mkDataFrame ["Date"; "Perpetrator"; "Perpetrator"]
          [[Some "2001-09-11"; Some "Al-Qaeda"; None];
           [Some "2005-07-07"; Some "Al-Qaeda"; None];
           [Some "ETA"; Some "3"; Some "2001-11-06"]]) /\
  ~ (forall df, scrape_page [table_2001; table_wide] = Ok df ->
                columns df = clean_tags <$> th table_2001).
Proof.
  assert (E : scrape_page [table_2001; table_wide]
              = Ok (mkDataFrame ["Date"; "Perpetrator"; "Perpetrator"]
                      [[Some "2001-09-11"; Some "Al-Qaeda"; None];
                       [Some "2005-07-07"; Some "Al-Qaeda"; None];
                       [Some "ETA"; Some "3"; Some "2001-11-06"]]))
    by (vm_compute; reflexivity).
  split; [exact E|].
  intros H. apply H in E. cbn [columns] in E.
  assert (E' : clean_tags <$> th table_2001 = ["Date"; "Perpetrator"])
    by (vm_compute; reflexivity).
  rewrite E' in E. discriminate E.
Qed.

(** C4, amended.  On a page whose matched tables all have a header cell the
    frame is built; its labels start as the cleaned header cells of the
    first matched table with a complete row, and each later table with a
    complete row and more header cells than labels so far appends its own
    leading cleaned header cells until the counts agree.  So when the first
    matched table has a complete row and no later table with a complete row
    has more header cells, the labels are exactly the first table's cleaned
    header cells, and they label the rows of every table of the page, short
    rows being filled with the missing value. *)
Theorem columns_from_tables (pg : list wikitable) :
  Forall (fun t => th t <> []) pg ->
  exists df,
    scrape_page pg = Ok df /\
    columns df = fold_left capture pg [] /\
    values df = pad (length (columns df)) <$> concat (table_rows <$> pg) /\
    (forall t rest,
       pg = t :: rest ->
       number_of_rows t <> 0 ->
       Forall (fun t' => number_of_rows t' = 0 \/
                         length (th t') <= length (th t)) rest ->
       columns df = clean_tags <$> th t).
Proof.
  intros H. eexists. split; [apply scrape_page_ok, H|].
  cbn [columns values]. split; [reflexivity|]. split; [reflexivity|].
  intros t rest -> Hn Hrest. cbn [fold_left].
  rewrite capture_first by exact Hn.
  apply fold_capture_stable. rewrite length_fmap. exact Hrest.
Qed.

Lemma columns_from_tables_witness :
  exists df,
    scrape_page [table_2001; table_total] = Ok df /\
    columns df = clean_tags <$> th table_2001 /\
    values df = [[Some "2001-09-11"; Some "Al-Qaeda"];
                 [Some "2005-07-07"; Some "Al-Qaeda"];
                 [Some "2"; None]].
Proof.
  destruct (columns_from_tables [table_2001; table_total])
    as (df & Hdf & Hcols & Hvals & Hfirst).
  - repeat constructor; discriminate.
  - exists df. split; [exact Hdf|]. split.
    + apply (Hfirst table_2001 [table_total] eq_refl).
      * vm_compute. lia.
      * constructor; [right; vm_compute; lia|constructor].
    + rewrite Hvals, Hcols. reflexivity.
Defined.

(** ** The loop over the years *)

Lemma py_str_inj (a b : Z) : py_str a = py_str b -> a = b.
Proof.
  unfold py_str. intros H.
  assert (Hnn : forall z, Z.to_int z <> Decimal.Pos Decimal.Nil /\
                          Z.to_int z <> Decimal.Neg Decimal.Nil).
  { intros [|p|p]; simpl; split; try discriminate;
      intros [= E]; exact (DecimalPos.Unsigned.to_uint_nonnil p E). }
  apply (f_equal NilZero.int_of_string) in H.
  rewrite !NilZero.isi in H by apply Hnn.
  injection H as H. apply DecimalZ.to_int_inj, H.
Qed.

Lemma dict_set_fresh {V} (k : string) (v : V) (d : list (string * V)) :
  k ∉ d.*1 -> dict_set k v d = d ++ [(k, v)].
Proof.
  induction d as [|[k' v'] d IH]; [reflexivity|].
  cbn [fmap list_fmap fst dict_set app]. intros Hk.
  apply not_elem_of_cons in Hk as [Hne Hk].
  rewrite decide_False by congruence. rewrite IH by exact Hk. reflexivity.
Qed.

Section ScraperProperties.

Variable wikitables_at : string -> result (list wikitable).
Variable storage_get : string -> list string.
Variable to_csv : DataFrame -> string.

Local Abbreviation scrape_tables := (scrape_tables wikitables_at).
Local Abbreviation build_data := (build_data wikitables_at).
Local Abbreviation save_all := (save_all to_csv).
Local Abbreviation init := (init wikitables_at storage_get to_csv).

Lemma year_step_ok (d : list (string * DataFrame)) (y : Z) (df : DataFrame) :
  scrape_tables y = Ok df ->
  year_step wikitables_at d y = Ok (dict_set (py_str y) df d).
Proof. intros H. unfold year_step. rewrite H. reflexivity. Qed.

Lemma year_step_raise (d : list (string * DataFrame)) (y : Z) (e : exn) :
  scrape_tables y = Raise e -> year_step wikitables_at d y = Raise e.
Proof. intros H. unfold year_step. rewrite H. reflexivity. Qed.

Lemma years_loop_ok (table : Z -> DataFrame) (years prev : list Z) :
  NoDup (prev ++ years) ->
  (forall y, y ∈ years -> scrape_tables y = Ok (table y)) ->
  for_each (year_step wikitables_at) years (entry table <$> prev)
  = Ok (entry table <$> prev ++ years).
Proof.
  revert prev. induction years as [|y years IH]; intros prev Hnd Hok.
  - rewrite app_nil_r. reflexivity.
  - cbn [for_each].
    rewrite (year_step_ok _ _ _ (Hok y ltac:(constructor))).
    cbn [mbind result_bind]. rewrite dict_set_fresh.
    + change [(py_str y, table y)] with (entry table <$> [y]).
      rewrite <- fmap_app, IH.
      * rewrite <- app_assoc. reflexivity.
      * rewrite <- app_assoc. exact Hnd.
      * intros y' Hy'. apply Hok. now constructor.
    + rewrite <- list_fmap_compose. intros Hin.
      apply list_elem_of_fmap in Hin as (y' & Heq & Hy').
      apply py_str_inj in Heq. subst y'.
      apply NoDup_app in Hnd as (_ & Hdisj & _).
      apply (Hdisj y Hy'). constructor.
Qed.

Lemma years_loop_first_raise (years1 years2 : list Z) (y : Z) (e : exn)
    (d : list (string * DataFrame)) :
  (forall y', y' ∈ years1 -> exists df, scrape_tables y' = Ok df) ->
  scrape_tables y = Raise e ->
  for_each (year_step wikitables_at) (years1 ++ y :: years2) d = Raise e.
Proof.
  revert d. induction years1 as [|y1 years1 IH]; intros d Hok He.
  - cbn [app for_each]. rewrite (year_step_raise _ _ _ He). reflexivity.
  - cbn [app for_each].
    destruct (Hok y1) as [df Hdf]; [constructor|].
    rewrite (year_step_ok _ _ _ Hdf).
    cbn [mbind result_bind]. apply IH; [|exact He].
    intros y' Hy'. apply Hok. now constructor.
Qed.

Lemma years_loop_raise (years : list Z) (y : Z) (e : exn)
    (d : list (string * DataFrame)) :
  y ∈ years -> scrape_tables y = Raise e ->
  exists e', for_each (year_step wikitables_at) years d = Raise e'.
Proof.
  intros Hy He. revert d.
  induction years as [|y1 years IH]; intros d; [inversion Hy|].
  cbn [for_each].
  destruct (scrape_tables y1) as [df|e1] eqn:E1.
  - rewrite (year_step_ok _ _ _ E1). cbn [mbind result_bind].
    apply IH. apply elem_of_cons in Hy as [->|Hy]; [congruence|exact Hy].
  - rewrite (year_step_raise _ _ _ E1). eauto.
Qed.

Lemma elem_of_py_range (a b y : Z) : y ∈ py_range a b <-> (a <= y < b)%Z.
Proof. unfold py_range. rewrite elem_of_seqZ. lia. Qed.

Lemma py_range_split (a b y : Z) :
  (a <= y < b)%Z ->
  py_range a b = py_range a y ++ y :: py_range (y + 1) b.
Proof.
  intros Hy. unfold py_range.
  replace (b - a)%Z with ((y - a) + (b - y))%Z by lia.
  rewrite seqZ_app by lia. f_equal.
  replace (a + (y - a))%Z with y by lia.
  rewrite seqZ_cons by lia. f_equal. f_equal; lia.
Qed.

Lemma scrape_tables_eq (year : Z) :
  scrape_tables year
  = (wikitables ← wikitables_at (prefix +:+ py_str year);
     scrape_page wikitables).
Proof. reflexivity. Qed.

Lemma build_data_eq (start_year stop_year : Z) :
  build_data start_year stop_year
  = for_each (year_step wikitables_at) (py_range start_year (stop_year + 1)) [].
Proof. reflexivity. Qed.

Lemma init_eq (start_year stop_year : Z) (save_csv : bool)
    (csv_path : string) (fs : gmap (list string) node) :
  init start_year stop_year save_csv csv_path fs
  = match build_data start_year stop_year with
    | Raise e => (fs, Raise e)
    | Ok data =>
        match get_perpetrators data with
        | Raise e => (fs, Raise e)
        | Ok perpetrators =>
            let self := mkWikiScraper data perpetrators in
            if save_csv
            then
              let '(fs', r) := save_all (storage_get csv_path) data fs in
              (fs', _ ← r; Ok self)
            else (fs, Ok self)
        end
    end.
Proof. reflexivity. Qed.

Lemma build_data_ok (table : Z -> DataFrame) (start_year stop_year : Z) :
  (forall y, (start_year <= y <= stop_year)%Z ->
             scrape_tables y = Ok (table y)) ->
  build_data start_year stop_year
  = Ok (entry table <$> py_range start_year (stop_year + 1)).
Proof.
  intros Hok.
  apply (years_loop_ok table (py_range start_year (stop_year + 1)) []).
  - apply NoDup_seqZ.
  - intros y Hy. apply elem_of_py_range in Hy. apply Hok. lia.
Qed.

Lemma build_data_first_raise (start_year stop_year y : Z) (e : exn) :
  (start_year <= y <= stop_year)%Z ->
  (forall y', (start_year <= y' < y)%Z -> exists df, scrape_tables y' = Ok df) ->
  scrape_tables y = Raise e ->
  build_data start_year stop_year = Raise e.
Proof.
  intros Hy Hok He. rewrite build_data_eq.
  rewrite (py_range_split start_year (stop_year + 1) y) by lia.
  apply (years_loop_first_raise _ _ _ _ _) with (2 := He).
  intros y' Hy'. apply elem_of_py_range in Hy'. apply Hok. lia.
Qed.

Lemma build_data_raise (start_year stop_year y : Z) (e : exn) :
  (start_year <= y <= stop_year)%Z ->
  scrape_tables y = Raise e ->
  exists e', build_data start_year stop_year = Raise e'.
Proof.
  intros Hy He.
  apply (years_loop_raise (py_range start_year (stop_year + 1)) y e []);
    [|exact He].
  apply elem_of_py_range. lia.
Qed.

Lemma init_build_raise (start_year stop_year : Z) (save_csv : bool)
    (csv_path : string) (fs : gmap (list string) node) (e : exn) :
  build_data start_year stop_year = Raise e ->
  init start_year stop_year save_csv csv_path fs = (fs, Raise e).
Proof. intros H. rewrite init_eq, H. reflexivity. Qed.

Lemma init_data (start_year stop_year : Z) (save_csv : bool)
    (csv_path : string) (fs fs' : gmap (list string) node)
    (self : WikiScraper) :
  init start_year stop_year save_csv csv_path fs = (fs', Ok self) ->
  build_data start_year stop_year = Ok (data self) /\
  get_perpetrators (data self) = Ok (perpetrators self).
Proof.
  rewrite init_eq.
  destruct (build_data start_year stop_year) as [d|e]; [|intros [= _ ?]; discriminate].
  destruct (get_perpetrators d) as [p|e] eqn:Ep; [|intros [= _ ?]; discriminate].
  destruct save_csv.
  - destruct (save_all (storage_get csv_path) d fs) as [fs1 [[]|e]]; cbn.
    + intros [= _ <-]. split; [reflexivity|exact Ep].
    + intros [= _ ?]; discriminate.
  - intros [= _ <-]. split; [reflexivity|exact Ep].
Qed.

(** C5. A matched table with no header cell makes the extractor raise
    [ZeroDivisionError] at the row count; the exception leaves
    [scrape_tables] and the constructor as it is: the run ends there, no
    object is built and no file is written, for that year or any other.
    (A year before it may have stopped the run first, with its own
    exception.) *)
Theorem zero_headers_end_run (start_year stop_year y : Z) (save_csv : bool)
    (csv_path : string) (fs : gmap (list string) node)
    (pg : list wikitable) (t : wikitable) :
  (start_year <= y <= stop_year)%Z ->
  wikitables_at (prefix +:+ py_str y) = Ok pg ->
  t ∈ pg ->
  th t = [] ->
  (forall st, table_step st t = Raise ZeroDivisionError) /\
  scrape_page pg = Raise ZeroDivisionError /\
  scrape_tables y = Raise ZeroDivisionError /\
  (exists e, init start_year stop_year save_csv csv_path fs = (fs, Raise e)) /\
  ((forall y', (start_year <= y' < y)%Z -> exists df, scrape_tables y' = Ok df) ->
   init start_year stop_year save_csv csv_path fs
   = (fs, Raise ZeroDivisionError)).
Proof.
  intros Hy Hpg Ht Hth.
  assert (Hpage : scrape_page pg = Raise ZeroDivisionError).
  { apply scrape_page_zero_headers, Exists_exists. eauto. }
  assert (Hscrape : scrape_tables y = Raise ZeroDivisionError).
  { rewrite scrape_tables_eq, Hpg. exact Hpage. }
  split; [intros st; apply table_step_zero_headers, Hth|].
  split; [exact Hpage|]. split; [exact Hscrape|]. split.
  - destruct (build_data_raise _ _ _ _ Hy Hscrape) as [e He].
    exists e. apply init_build_raise, He.
  - intros Hbefore. apply init_build_raise.
    apply (build_data_first_raise _ _ y); assumption.
Qed.

(** C8. With [start_year <= stop_year] and every year of the range
    scraped, the collection holds, in order, one entry per year from
    [start_year] to [stop_year] inclusive, keyed by [str(year)] and holding
    that year's frame: [stop_year - start_year + 1] entries with distinct
    keys and no other; it is the [data] of the object built. *)
Theorem data_covers_years (table : Z -> DataFrame) (start_year stop_year : Z) :
  (start_year <= stop_year)%Z ->
  (forall y, (start_year <= y <= stop_year)%Z ->
             scrape_tables y = Ok (table y)) ->
  let d := entry table <$> py_range start_year (stop_year + 1) in
  build_data start_year stop_year = Ok d /\
  length d = Z.to_nat (stop_year - start_year + 1) /\
  NoDup d.*1 /\
  (forall k df, (k, df) ∈ d <->
     exists y, (start_year <= y <= stop_year)%Z /\
               k = py_str y /\ df = table y) /\
  (forall save_csv csv_path fs fs' self,
     init start_year stop_year save_csv csv_path fs = (fs', Ok self) ->
     data self = d).
Proof.
  intros Hle Hok d.
  assert (Hd : build_data start_year stop_year = Ok d)
    by apply build_data_ok, Hok.
  split; [exact Hd|]. split.
  { unfold d, py_range. rewrite length_fmap, length_seqZ. f_equal. lia. }
  split.
  { unfold d. rewrite <- list_fmap_compose.
    apply NoDup_fmap_2_strong; [|apply NoDup_seqZ].
    intros a b _ _ Hab. apply py_str_inj, Hab. }
  split.
  { intros k df. unfold d. rewrite list_elem_of_fmap. split.
    - intros (y & [= -> ->] & Hin). apply elem_of_py_range in Hin.
      exists y. split; [lia|]. split; reflexivity.
    - intros (y & Hy & -> & ->). exists y. split; [reflexivity|].
      apply elem_of_py_range. lia. }
  intros save_csv csv_path fs fs' self Hinit.
  apply init_data in Hinit as [Hb _]. rewrite Hd in Hb. congruence.
Qed.

End ScraperProperties.

(** ** Runs on a small web *)

Example web_2000 : scrape_tables web 2000 = Ok frame_2000.
Proof. reflexivity. Qed.

Example run_2000_2001 :
  init web in_cwd plain_csv 2000 2001 false "csv_data" ∅
  = (∅, Ok (mkWikiScraper [("2000", frame_2000); ("2001", frame_empty)]
                          {[ Some "Al-Qaeda" := 2 ]})).
Proof. vm_compute. reflexivity. Qed.

Lemma zero_headers_end_run_witness :
  (forall st, table_step st table_headless = Raise ZeroDivisionError) /\
  scrape_page [table_wide; table_headless] = Raise ZeroDivisionError /\
  scrape_tables web 2002 = Raise ZeroDivisionError /\
  (exists e, init web in_cwd plain_csv 2000 2002 true "csv_data" ∅
             = (∅, Raise e)) /\
  ((forall y', (2000 <= y' < 2002)%Z -> exists df, scrape_tables web y' = Ok df) ->
   init web in_cwd plain_csv 2000 2002 true "csv_data" ∅
   = (∅, Raise ZeroDivisionError)).
Proof.
  apply (zero_headers_end_run web in_cwd plain_csv 2000 2002 2002 true
           "csv_data" ∅ [table_wide; table_headless] table_headless).
  - lia.
  - vm_compute. reflexivity.
  - right. left.
  - reflexivity.
Defined.

Example run_2000_2002 :
  init web in_cwd plain_csv 2000 2002 true "csv_data" ∅
  = (∅, Raise ZeroDivisionError).
Proof. vm_compute. reflexivity. Qed.

Lemma data_covers_years_witness :
  let d := entry frames_2000_2001 <$> py_range 2000 (2001 + 1) in
  build_data web 2000 2001 = Ok d /\
  length d = Z.to_nat (2001 - 2000 + 1) /\
  NoDup d.*1 /\
  (forall k df, (k, df) ∈ d <->
     exists y, (2000 <= y <= 2001)%Z /\
               k = py_str y /\ df = frames_2000_2001 y) /\
  (forall save_csv csv_path fs fs' self,
     init web in_cwd plain_csv 2000 2001 save_csv csv_path fs = (fs', Ok self) ->
     data self = d).
Proof.
  apply (data_covers_years web in_cwd plain_csv frames_2000_2001 2000 2001).
  - lia.
  - intros y Hy.
    assert (Hcases : y = 2000%Z \/ y = 2001%Z) by lia.
    destruct Hcases as [-> | ->]; vm_compute; reflexivity.
Defined.

(** ** The perpetrator counter *)

Lemma Counter_loop_scalars (ks : list (option string))
    (c : gmap (option string) nat) :
  for_each (fun c x => match x with
                       | Scalar k => Ok (count_up k c)
                       | Nested _ => Raise TypeError
                       end) (Scalar <$> ks) c
  = Ok (count_all ks c).
Proof.
  revert c. induction ks as [|k ks IH]; intros c; [reflexivity|].
  cbn [fmap list_fmap for_each mbind result_bind]. apply IH.
Qed.

Lemma Counter_scalars (ks : list (option string)) :
  Counter (Scalar <$> ks) = Ok (count_all ks ∅).
Proof. apply Counter_loop_scalars. Qed.

Lemma count_all_lookup (ks : list (option string))
    (c : gmap (option string) nat) (k : option string) :
  count_all ks c !! k
  = if decide (occurrences k ks = 0) then c !! k
    else Some (default 0 (c !! k) + occurrences k ks).
Proof.
  revert c. induction ks as [|x ks IH]; intros c; [reflexivity|].
  cbn [count_all fold_left]. fold (count_all ks (count_up x c)).
  rewrite IH. unfold count_up, occurrences.
  destruct (decide (x = k)) as [->|Hne].
  - rewrite lookup_insert_eq, filter_cons_True by reflexivity.
    cbn [length default].
    set (n := length (filter (fun x => x = k) ks)).
    rewrite (decide_False (P := S n = 0)) by lia.
    clearbody n. destruct (decide (n = 0)); f_equal; unfold id; lia.
  - rewrite lookup_insert_ne, filter_cons_False by exact Hne. reflexivity.
Qed.

Lemma positions_nil_iff (name : string) (cols : list string) (i : nat) :
  positions name cols i = [] <-> name ∉ cols.
Proof.
  revert i. induction cols as [|c cols IH]; intros i; cbn [positions].
  - split; [intros _; apply not_elem_of_nil|reflexivity].
  - rewrite not_elem_of_cons. destruct (decide (c = name)) as [->|Hne].
    + split; [discriminate|]. intros [? _]. congruence.
    + rewrite IH. split; [intros ?; split; congruence|intros [_ ?]; assumption].
Qed.

Lemma positions_NoDup (name : string) (cols : list string) (i : nat) :
  NoDup cols -> name ∈ cols -> exists j, positions name cols i = [j].
Proof.
  intros Hnd. revert i. induction Hnd as [|c cols Hc _ IH]; intros i Hin.
  - inversion Hin.
  - cbn [positions]. destruct (decide (c = name)) as [->|Hne].
    + exists i. f_equal. apply positions_nil_iff, Hc.
    + apply IH. apply elem_of_cons in Hin as [->|Hin]; [congruence|exact Hin].
Qed.

(** In a frame with pairwise distinct labels every label present occurs
    once. *)
Lemma NoDup_labelled_once (df : DataFrame) (name : string) :
  NoDup (columns df) -> name ∈ columns df -> labelled_once name df.
Proof. apply positions_NoDup. Qed.

Lemma column_tolist_once (df : DataFrame) (name : string) :
  labelled_once name df ->
  column_tolist df name = Ok (Scalar <$> column_values df name).
Proof.
  intros [i Hi]. unfold column_tolist, column_values. rewrite Hi.
  rewrite <- list_fmap_compose. reflexivity.
Qed.

Lemma column_tolist_ok_elem (df : DataFrame) (name : string)
    (vs : list pyobj) :
  column_tolist df name = Ok vs -> name ∈ columns df.
Proof.
  unfold column_tolist. intros H.
  destruct (decide (name ∈ columns df)) as [|Hn]; [assumption|].
  apply (positions_nil_iff name (columns df) 0) in Hn. rewrite Hn in H.
  discriminate H.
Qed.

Lemma perpetrators_of_once (df : DataFrame) :
  (forall name, selected_label df = Some name -> labelled_once name df) ->
  perpetrators_of df = Ok (Scalar <$> selected_values df).
Proof.
  intros H. unfold perpetrators_of, selected_values, selected_label in *.
  destruct (decide ("Perpetrator" ∈ columns df)).
  - apply column_tolist_once, H. reflexivity.
  - destruct (decide ("Perpetrators" ∈ columns df)); [|reflexivity].
    apply column_tolist_once, H. reflexivity.
Qed.

Lemma collect_step_ok (ps vs : list pyobj) (df : DataFrame) :
  perpetrators_of df = Ok vs -> collect_step ps df = Ok (ps ++ vs).
Proof. intros H. unfold collect_step. rewrite H. reflexivity. Qed.

Lemma collect_loop_once (frames : list DataFrame)
    (ks : list (option string)) :
  Forall (fun df => forall name, selected_label df = Some name ->
                                 labelled_once name df) frames ->
  for_each collect_step frames (Scalar <$> ks)
  = Ok (Scalar <$> ks ++ concat (selected_values <$> frames)).
Proof.
  intros H. revert ks. induction H as [|df frames Hdf _ IH]; intros ks.
  - cbn. rewrite app_nil_r. reflexivity.
  - cbn [for_each].
    rewrite (collect_step_ok _ _ _ (perpetrators_of_once df Hdf)).
    cbn [mbind result_bind].
    rewrite <- fmap_app, IH. cbn [fmap list_fmap concat].
    rewrite app_assoc. reflexivity.
Qed.

Lemma perpetrators_of_perpetrator (df : DataFrame) :
  "Perpetrator" ∈ columns df ->
  perpetrators_of df = column_tolist df "Perpetrator".
Proof. intros H. unfold perpetrators_of. rewrite decide_True by exact H. reflexivity. Qed.

Lemma get_perpetrators_snoc (data : list (string * DataFrame)) (year : string)
    (df : DataFrame) :
  get_perpetrators (data ++ [(year, df)])
  = (ps ← collect_perpetrators data;
     vs ← perpetrators_of df;
     Counter (ps ++ vs)).
Proof.
  unfold get_perpetrators, collect_perpetrators.
  rewrite fmap_app, for_each_app. cbn [fmap list_fmap snd].
  destruct (for_each collect_step data.*2 []) as [ps|e];
    cbn [mbind result_bind for_each]; [|reflexivity].
  unfold collect_step. destruct (perpetrators_of df); reflexivity.
Qed.

(** C10. In a frame with both a "Perpetrator" and a "Perpetrators" column
    only the "Perpetrator" column is read into the tally; "Perpetrators" is
    read only in a frame without a "Perpetrator" column. *)
Theorem perpetrator_before_perpetrators (df : DataFrame) :
  "Perpetrator" ∈ columns df ->
  "Perpetrators" ∈ columns df ->
  perpetrators_of df = column_tolist df "Perpetrator" /\
  (forall data year,
     get_perpetrators (data ++ [(year, df)])
     = (ps ← collect_perpetrators data;
        vs ← column_tolist df "Perpetrator";
        Counter (ps ++ vs))) /\
  (forall df',
     "Perpetrator" ∉ columns df' -> "Perpetrators" ∈ columns df' ->
     perpetrators_of df' = column_tolist df' "Perpetrators").
Proof.
  intros H1 _. split; [apply perpetrators_of_perpetrator, H1|]. split.
  - intros data year. rewrite get_perpetrators_snoc.
    rewrite perpetrators_of_perpetrator by exact H1. reflexivity.
  - intros df' Hn Hs. unfold perpetrators_of.
    rewrite decide_False by exact Hn. rewrite decide_True by exact Hs.
    reflexivity.
Qed.

Lemma perpetrator_before_perpetrators_witness :
  perpetrators_of frame_both = Ok [Scalar (Some "ETA"); Scalar None] /\
  get_perpetrators [("1999", frame_both)]
  = Ok {[ Some "ETA" := 1; None := 1 ]}.
Proof.
  destruct (perpetrator_before_perpetrators frame_both) as (Hof & Hget & _).
  - vm_compute. set_solver.
  - vm_compute. set_solver.
  - split.
    + rewrite Hof. vm_compute. reflexivity.
    + pose proof (Hget [] "1999") as E. cbn [app] in E. rewrite E.
      vm_compute. reflexivity.
Defined.

(** ** The CSV writer *)

Lemma stat_snoc (fs : gmap (list string) node) (d : list string) (n : string) :
  stat fs (d ++ [n]) = fs !! (d ++ [n]).
Proof. unfold stat. destruct d; reflexivity. Qed.

Lemma ancestors_longer (done todo q : list string) :
  q ∈ ancestors done todo -> length done < length q.
Proof.
  revert done. induction todo as [|n todo IH]; intros done; cbn [ancestors].
  - intros H. inversion H.
  - intros [->|H]%elem_of_cons.
    + rewrite length_app. simpl. lia.
    + apply IH in H. rewrite length_app in H. simpl in H. lia.
Qed.

Lemma ancestors_length_le (done todo q : list string) :
  q ∈ ancestors done todo -> length q <= length done + length todo.
Proof.
  revert done. induction todo as [|n todo IH]; intros done; cbn [ancestors].
  - intros H. inversion H.
  - intros [->|H]%elem_of_cons.
    + rewrite length_app. simpl. lia.
    + apply IH in H. rewrite length_app in H. simpl in *. lia.
Qed.

Lemma ancestors_last (done todo : list string) :
  todo <> [] -> done ++ todo ∈ ancestors done todo.
Proof.
  revert done. induction todo as [|n todo IH]; intros done Hne; [congruence|].
  cbn [ancestors]. destruct todo as [|n' todo].
  - left.
  - right. replace (done ++ n :: n' :: todo) with ((done ++ [n]) ++ n' :: todo)
      by (rewrite <- app_assoc; reflexivity).
    apply IH. discriminate.
Qed.

Lemma made_lookup (fs : gmap (list string) node) (dirs : list (list string))
    (q : list string) :
  made fs dirs !! q = if decide (q ∈ dirs) then Some Dir else fs !! q.
Proof.
  revert fs. induction dirs as [|d dirs IH]; intros fs; cbn [made fold_left].
  - rewrite decide_False by apply not_elem_of_nil. reflexivity.
  - fold (made (<[d := Dir]> fs) dirs). rewrite IH.
    destruct (decide (q ∈ dirs)) as [Hin|Hnin].
    + rewrite decide_True by (now right). reflexivity.
    + destruct (decide (q = d)) as [->|Hne].
      * rewrite decide_True by left. apply lookup_insert_eq.
      * rewrite decide_False by (intros [?|?]%elem_of_cons; congruence).
        apply lookup_insert_ne. congruence.
Qed.

(** [mkdir] ends normally when no regular file stands on the way. *)
Lemma mkdir_from_ok (fs : gmap (list string) node) (done todo : list string) :
  stat fs done = Some Dir ->
  (forall q c, q ∈ ancestors done todo -> fs !! q <> Some (File c)) ->
  mkdir_from fs done todo = Ok (made fs (ancestors done todo)).
Proof.
  revert fs done. induction todo as [|n todo IH]; intros fs done Hdone Hway.
  - reflexivity.
  - cbn [mkdir_from ancestors made fold_left].
    fold (made (<[done ++ [n] := Dir]> fs) (ancestors (done ++ [n]) todo)).
    destruct (fs !! (done ++ [n])) as [[|c]|] eqn:E.
    + rewrite (insert_id _ _ _ E). apply IH.
      * rewrite stat_snoc. exact E.
      * intros q c Hq. apply Hway. now right.
    + exfalso. apply (Hway (done ++ [n]) c); [left|exact E].
    + unfold os_mkdir. rewrite Hdone, E. cbn [mbind result_bind].
      apply IH.
      * rewrite stat_snoc. apply lookup_insert_eq.
      * intros q c Hq. rewrite lookup_insert_ne.
        -- apply Hway. now right.
        -- intros Heq. apply ancestors_longer in Hq. rewrite Heq in Hq. lia.
Qed.

Lemma mkdir_parents_exist_ok_ok (fs : gmap (list string) node)
    (dir : list string) :
  (forall q c, q ∈ ancestors [] dir -> fs !! q <> Some (File c)) ->
  mkdir_parents_exist_ok fs dir = Ok (made fs (ancestors [] dir)).
Proof. intros H. apply mkdir_from_ok; [reflexivity|exact H]. Qed.

Lemma stat_made_dir (fs : gmap (list string) node) (dir : list string) :
  stat (made fs (ancestors [] dir)) dir = Some Dir.
Proof.
  destruct dir as [|n dir]; [reflexivity|].
  cbn [stat]. rewrite made_lookup, decide_True; [reflexivity|].
  apply (ancestors_last [] (n :: dir)). discriminate.
Qed.

Lemma csv_file_not_ancestor (dir : list string) (year : string) :
  csv_file dir year ∉ ancestors [] dir.
Proof.
  intros H. apply ancestors_length_le in H. unfold csv_file in H.
  rewrite length_app in H. simpl in H. lia.
Qed.

(** One turn of the writing loop. *)
Lemma write_csv_ok (fs : gmap (list string) node) (dir : list string)
    (year text : string) :
  fs !! csv_file dir year <> Some Dir ->
  write_text (made fs (ancestors [] dir)) (csv_file dir year) text
  = Ok (<[csv_file dir year := File text]> (made fs (ancestors [] dir))).
Proof.
  intros Hfile. unfold write_text.
  pose proof (csv_file_not_ancestor dir year) as Hna. unfold csv_file in *.
  rewrite removelast_last, stat_made_dir, stat_snoc, made_lookup.
  rewrite decide_False by exact Hna.
  destruct (fs !! (dir ++ [year +:+ ".csv"])) as [[|c]|]; [congruence| |];
    reflexivity.
Qed.

Lemma string_length_app (s t : string) :
  String.length (s +:+ t) = String.length s + String.length t.
Proof. induction s as [|c s IH]; simpl; [reflexivity|]. rewrite IH. reflexivity. Qed.

Lemma string_app_inj_l (s1 s2 t : string) : s1 +:+ t = s2 +:+ t -> s1 = s2.
Proof.
  revert s2. induction s1 as [|c s1 IH]; intros [|c' s2] H.
  - reflexivity.
  - apply (f_equal String.length) in H.
    rewrite !string_length_app in H. simpl in H. lia.
  - apply (f_equal String.length) in H.
    rewrite !string_length_app in H. simpl in H. lia.
  - cbn in H. injection H as -> H. f_equal. apply IH, H.
Qed.

Lemma csv_file_inj (dir : list string) (y1 y2 : string) :
  csv_file dir y1 = csv_file dir y2 -> y1 = y2.
Proof.
  unfold csv_file. intros H. apply app_inv_head in H. injection H as H.
  apply string_app_inj_l in H. exact H.
Qed.

Section WriterProperties.

Variable to_csv : DataFrame -> string.

Local Abbreviation save_all := (save_all to_csv).

Lemma save_all_cons (dir : list string) (year : string) (df : DataFrame)
    (items : list (string * DataFrame)) (fs : gmap (list string) node) :
  save_all dir ((year, df) :: items) fs
  = match mkdir_parents_exist_ok fs dir with
    | Raise e => (fs, Raise e)
    | Ok fs1 =>
        match write_text fs1 (csv_file dir year) (to_csv df) with
        | Raise e => (fs1, Raise e)
        | Ok fs2 => save_all dir items fs2
        end
    end.
Proof. reflexivity. Qed.

Lemma save_all_ok (dir : list string) (items : list (string * DataFrame))
    (fs : gmap (list string) node) :
  way_clear dir fs -> files_free dir items.*1 fs ->
  save_all dir items fs = (written to_csv dir items fs, Ok ()).
Proof.
  revert fs. induction items as [|[year df] items IH]; intros fs Hway Hfiles.
  - reflexivity.
  - rewrite save_all_cons, mkdir_parents_exist_ok_ok by exact Hway.
    rewrite write_csv_ok by (apply Hfiles; left).
    cbn [written fold_left fst snd]. apply IH.
    + intros q c Hq. rewrite lookup_insert_ne, made_lookup, decide_True
        by (try exact Hq; intros <-; exact (csv_file_not_ancestor _ _ Hq)).
      discriminate.
    + intros year' Hyear'.
      destruct (decide (csv_file dir year = csv_file dir year')) as [E|E].
      * rewrite E, lookup_insert_eq. discriminate.
      * rewrite lookup_insert_ne, made_lookup, decide_False
          by (try exact E; apply csv_file_not_ancestor).
        apply Hfiles. now right.
Qed.

Lemma written_lookup_other (dir : list string)
    (items : list (string * DataFrame)) (fs : gmap (list string) node)
    (p : list string) :
  (forall year, year ∈ items.*1 -> p <> csv_file dir year) ->
  written to_csv dir items fs !! p
  = match items with
    | [] => fs !! p
    | _ => made fs (ancestors [] dir) !! p
    end.
Proof.
  revert fs. induction items as [|[year df] items IH]; intros fs Hp.
  - reflexivity.
  - cbn [written fold_left fst snd].
    set (fs2 := <[csv_file dir year := File (to_csv df)]>
                  (made fs (ancestors [] dir))).
    fold (written to_csv dir items fs2). rewrite IH
      by (intros y Hy; apply Hp; now right).
    assert (E : fs2 !! p = made fs (ancestors [] dir) !! p).
    { apply lookup_insert_ne. intros Heq. apply (Hp year); [left|].
      symmetry. exact Heq. }
    destruct items as [|kd items]; [exact E|].
    rewrite made_lookup, E. rewrite (made_lookup fs).
    destruct (decide (p ∈ ancestors [] dir)); reflexivity.
Qed.

Lemma written_lookup_file (dir : list string)
    (items : list (string * DataFrame)) (fs : gmap (list string) node)
    (year : string) (df : DataFrame) :
  NoDup items.*1 -> (year, df) ∈ items ->
  written to_csv dir items fs !! csv_file dir year = Some (File (to_csv df)).
Proof.
  revert fs. induction items as [|[y0 d0] items IH]; intros fs Hnd Hin.
  - inversion Hin.
  - cbn [fmap list_fmap fst] in Hnd. apply NoDup_cons in Hnd as [Hy0 Hnd].
    cbn [written fold_left fst snd].
    set (fs2 := <[csv_file dir y0 := File (to_csv d0)]>
                  (made fs (ancestors [] dir))).
    fold (written to_csv dir items fs2).
    apply elem_of_cons in Hin as [[= -> ->]|Hin]; [|apply IH; assumption].
    rewrite written_lookup_other.
    + assert (E : fs2 !! csv_file dir y0 = Some (File (to_csv d0)))
        by apply lookup_insert_eq.
      destruct items; [exact E|].
      rewrite made_lookup, decide_False by apply csv_file_not_ancestor.
      exact E.
    + intros y Hy Heq. apply csv_file_inj in Heq. congruence.
Qed.

Lemma written_way_clear (dir : list string)
    (items : list (string * DataFrame)) (fs : gmap (list string) node) :
  way_clear dir fs -> way_clear dir (written to_csv dir items fs).
Proof.
  intros Hway q c Hq. rewrite written_lookup_other.
  - destruct items; [exact (Hway q c Hq)|].
    rewrite made_lookup, decide_True by exact Hq. discriminate.
  - intros y _ ->. exact (csv_file_not_ancestor _ _ Hq).
Qed.

Lemma written_files_free (dir : list string)
    (items : list (string * DataFrame)) (fs : gmap (list string) node) :
  NoDup items.*1 -> files_free dir items.*1 (written to_csv dir items fs).
Proof.
  intros Hnd year Hyear.
  apply list_elem_of_fmap in Hyear as ([y df] & -> & Hin). cbn [fst].
  rewrite (written_lookup_file dir items fs y df Hnd Hin). discriminate.
Qed.

(** Running the loop again changes nothing. *)
Lemma written_again (dir : list string)
    (items : list (string * DataFrame)) (fs : gmap (list string) node) :
  NoDup items.*1 ->
  written to_csv dir items (written to_csv dir items fs) = written to_csv dir items fs.
Proof.
  intros Hnd. apply map_eq. intros p.
  destruct (decide (p ∈ csv_file dir <$> items.*1)) as [Hp|Hp].
  - apply list_elem_of_fmap in Hp as (y & -> & Hy).
    apply list_elem_of_fmap in Hy as ([y' df] & -> & Hin).
    cbn [fst]. rewrite !(written_lookup_file dir items _ y' df Hnd Hin).
    reflexivity.
  - assert (Hp' : forall year, year ∈ items.*1 -> p <> csv_file dir year).
    { intros year Hyear ->. apply Hp. now apply list_elem_of_fmap_2. }
    rewrite (written_lookup_other dir items (written to_csv dir items fs) p Hp').
    pose proof (written_lookup_other dir items fs p Hp') as Hfs.
    destruct items as [|kd items']; [reflexivity|].
    rewrite made_lookup.
    destruct (decide (p ∈ ancestors [] dir)) as [Ha|Ha]; [|reflexivity].
    rewrite Hfs, made_lookup, decide_True by exact Ha. reflexivity.
Qed.

End WriterProperties.

Lemma dict_set_keys {V} (k : string) (v : V) (d : list (string * V)) :
  (dict_set k v d).*1 = if decide (k ∈ d.*1) then d.*1 else d.*1 ++ [k].
Proof.
  induction d as [|[k' v'] d IH]; [reflexivity|].
  cbn [dict_set fmap list_fmap fst].
  destruct (decide (k' = k)) as [->|Hne].
  - rewrite decide_True by left. reflexivity.
  - cbn [fmap list_fmap fst]. fold (fmap (M:=list) (@fst string V)).
    rewrite IH. destruct (decide (k ∈ d.*1)) as [Hin|Hnin].
    + rewrite decide_True by (now right). reflexivity.
    + rewrite decide_False by (intros [?|?]%elem_of_cons; congruence).
      reflexivity.
Qed.

Lemma dict_set_NoDup {V} (k : string) (v : V) (d : list (string * V)) :
  NoDup d.*1 -> NoDup (dict_set k v d).*1.
Proof.
  intros H. rewrite dict_set_keys.
  destruct (decide (k ∈ d.*1)) as [|Hnin]; [exact H|].
  apply NoDup_app. split; [exact H|]. split; [|apply NoDup_singleton].
  intros x Hx [->|Hx']%elem_of_cons; [contradiction|inversion Hx'].
Qed.

Section ConstructorProperties.

Variable wikitables_at : string -> result (list wikitable).
Variable storage_get : string -> list string.
Variable to_csv : DataFrame -> string.

Local Abbreviation build_data := (build_data wikitables_at).
Local Abbreviation init := (init wikitables_at storage_get to_csv).

Lemma years_loop_NoDup (years : list Z) (d d' : list (string * DataFrame)) :
  NoDup d.*1 ->
  for_each (year_step wikitables_at) years d = Ok d' -> NoDup d'.*1.
Proof.
  revert d. induction years as [|y years IH]; intros d Hnd.
  - intros [= <-]. exact Hnd.
  - cbn [for_each].
    destruct (scrape_tables wikitables_at y) as [df|e] eqn:E.
    + rewrite (year_step_ok _ _ _ _ E). cbn [mbind result_bind].
      apply IH, dict_set_NoDup, Hnd.
    + rewrite (year_step_raise _ _ _ _ E). discriminate.
Qed.

Lemma build_data_NoDup (start_year stop_year : Z)
    (d : list (string * DataFrame)) :
  build_data start_year stop_year = Ok d -> NoDup d.*1.
Proof. apply years_loop_NoDup. constructor. Qed.

(** C9. With saving enabled the constructor writes, for every year of the
    collection, the file [<year>.csv] in the target directory, holding the
    text of that year's frame.  It does so whether the directory is
    there already or has to be made, parents included, and whatever
    regular file has the name before is replaced; nothing else is
    changed.  Run again on the file system it leaves, it ends normally
    again and leaves the same files.  (The file system is assumed to put no
    regular file on the way to the directory and no directory where a
    file is written.) *)
Theorem csv_files_written (start_year stop_year : Z) (csv_path : string)
    (fs : gmap (list string) node) (d : list (string * DataFrame))
    (t : gmap (option string) nat) :
  build_data start_year stop_year = Ok d ->
  get_perpetrators d = Ok t ->
  way_clear (storage_get csv_path) fs ->
  files_free (storage_get csv_path) d.*1 fs ->
  let dir := storage_get csv_path in
  exists fs',
    init start_year stop_year true csv_path fs
    = (fs', Ok (mkWikiScraper d t)) /\
    (forall year df, (year, df) ∈ d ->
       fs' !! csv_file dir year = Some (File (to_csv df))) /\
    (d <> [] -> stat fs' dir = Some Dir) /\
    (forall p, p ∉ ancestors [] dir ->
               (forall year, year ∈ d.*1 -> p <> csv_file dir year) ->
               fs' !! p = fs !! p) /\
    init start_year stop_year true csv_path fs'
    = (fs', Ok (mkWikiScraper d t)).
Proof.
  intros Hd Ht Hway Hfiles dir.
  pose proof (build_data_NoDup _ _ _ Hd) as Hnd.
  exists (written to_csv dir d fs).
  assert (Hrun : forall fs0, way_clear dir fs0 -> files_free dir d.*1 fs0 ->
            init start_year stop_year true csv_path fs0
            = (written to_csv dir d fs0, Ok (mkWikiScraper d t))).
  { intros fs0 Hw Hf. rewrite init_eq, Hd, Ht. cbv zeta.
    fold dir. rewrite (save_all_ok to_csv dir d fs0 Hw Hf). reflexivity. }
  split; [apply Hrun; assumption|].
  split; [intros year df Hin; apply written_lookup_file; assumption|].
  split.
  { intros Hne. destruct dir as [|n dir'] eqn:Edir; [reflexivity|].
    cbn [stat]. rewrite <- Edir.
    assert (Ha : dir ∈ ancestors [] dir).
    { rewrite Edir. apply (ancestors_last [] (n :: dir')). discriminate. }
    rewrite written_lookup_other.
    - destruct d; [congruence|].
      rewrite made_lookup, decide_True by exact Ha. reflexivity.
    - intros y _ Heq. apply (f_equal length) in Heq.
      unfold csv_file in Heq. rewrite length_app in Heq. simpl in Heq. lia. }
  split.
  { intros p Hp Hother. rewrite written_lookup_other by exact Hother.
    destruct d; [reflexivity|].
    rewrite made_lookup, decide_False by exact Hp. reflexivity. }
  rewrite Hrun.
  - rewrite written_again by exact Hnd. reflexivity.
  - apply written_way_clear, Hway.
  - apply written_files_free, Hnd.
Qed.

End ConstructorProperties.

Lemma csv_files_written_witness :
  (exists fs',
     init web in_cwd plain_csv 2000 2001 true "csv_data" ∅
     = (fs', Ok scraper_2000_2001) /\
     fs' !! ["csv_data"; "2000.csv"] = Some (File (plain_csv frame_2000)) /\
     fs' !! ["csv_data"; "2001.csv"] = Some (File (plain_csv frame_empty)) /\
     stat fs' ["csv_data"] = Some Dir /\
     init web in_cwd plain_csv 2000 2001 true "csv_data" fs'
     = (fs', Ok scraper_2000_2001)) /\
  (exists fs',
     init web in_cwd plain_csv 2000 2001 true "csv_data" fs_old
     = (fs', Ok scraper_2000_2001) /\
     fs' !! ["csv_data"; "2000.csv"] = Some (File (plain_csv frame_2000)) /\
     fs' !! ["csv_data"; "2001.csv"] = Some (File (plain_csv frame_empty)) /\
     stat fs' ["csv_data"] = Some Dir /\
     init web in_cwd plain_csv 2000 2001 true "csv_data" fs'
     = (fs', Ok scraper_2000_2001)).
Proof.
  assert (Hd : build_data web 2000 2001 = Ok data_2000_2001)
    by (vm_compute; reflexivity).
  assert (Ht : get_perpetrators data_2000_2001 = Ok {[ Some "Al-Qaeda" := 2 ]})
    by (vm_compute; reflexivity).
  assert (Hanc : forall q, q ∈ ancestors [] (in_cwd "csv_data") ->
                           q = ["csv_data"]).
  { intros q Hq. cbn in Hq. apply list_elem_of_singleton in Hq. exact Hq. }
  assert (Hyears : forall y, y ∈ data_2000_2001.*1 -> y = "2000" \/ y = "2001").
  { intros y Hy. cbn in Hy. apply elem_of_cons in Hy as [->|Hy]; [now left|].
    apply list_elem_of_singleton in Hy. now right. }
  split.
  - destruct (csv_files_written web in_cwd plain_csv 2000 2001 "csv_data" ∅
                data_2000_2001 _ Hd Ht) as (fs' & H1 & H2 & H3 & _ & H5).
    + intros q c _. rewrite lookup_empty. discriminate.
    + intros y _. rewrite lookup_empty. discriminate.
    + exists fs'. split; [exact H1|].
      split; [apply (H2 "2000" frame_2000); left|].
      split; [apply (H2 "2001" frame_empty); right; left|].
      split; [apply H3; discriminate|exact H5].
  - destruct (csv_files_written web in_cwd plain_csv 2000 2001 "csv_data"
                fs_old data_2000_2001 _ Hd Ht) as (fs' & H1 & H2 & H3 & _ & H5).
    + intros q c Hq. apply Hanc in Hq. subst q. unfold fs_old.
      rewrite lookup_insert_ne, lookup_insert_eq by discriminate.
      discriminate.
    + intros y Hy. apply Hyears in Hy. unfold fs_old.
      destruct Hy as [-> | ->].
      * change (csv_file (in_cwd "csv_data") "2000")
          with ["csv_data"; "2000.csv"].
        rewrite lookup_insert_eq. discriminate.
      * change (csv_file (in_cwd "csv_data") "2001")
          with ["csv_data"; "2001.csv"].
        rewrite !lookup_insert_ne, lookup_empty by discriminate.
        discriminate.
    + exists fs'. split; [exact H1|].
      split; [apply (H2 "2000" frame_2000); left|].
      split; [apply (H2 "2001" frame_empty); right; left|].
      split; [apply H3; discriminate|exact H5].
Defined.

(** ** A page without tables *)

(** A page without any matched table: the extractor returns the empty
    frame and the constructor ends normally, the year being part of its
    [data] and its (empty) frame written like any other. *)
Lemma missing_tables_no_error :
  web (prefix +:+ py_str 2001) = Ok [] /\
  scrape_tables web 2001 = Ok frame_empty /\
  ~ (exists e, scrape_tables web 2001 = Raise e) /\
  (exists fs',
     init web in_cwd plain_csv 2001 2001 true "csv_data" ∅
     = (fs', Ok (mkWikiScraper [("2001", frame_empty)] ∅))) /\
  ~ (exists fs' e, init web in_cwd plain_csv 2001 2001 true "csv_data" ∅
                   = (fs', Raise e)).
Proof.
  assert (E' : scrape_tables web 2001 = Ok frame_empty)
    by (vm_compute; reflexivity).
  assert (E : init web in_cwd plain_csv 2001 2001 true "csv_data" ∅
              = (written plain_csv ["csv_data"] [("2001", frame_empty)] ∅,
                 Ok (mkWikiScraper [("2001", frame_empty)] ∅))).
  { rewrite init_eq.
    assert (Hd : build_data web 2001 2001 = Ok [("2001", frame_empty)])
      by (vm_compute; reflexivity).
    rewrite Hd.
    assert (Ht : get_perpetrators [("2001", frame_empty)] = Ok ∅)
      by (vm_compute; reflexivity).
    rewrite Ht. cbv zeta.
    rewrite (save_all_ok plain_csv (in_cwd "csv_data")).
    - reflexivity.
    - intros q c _. rewrite lookup_empty. discriminate.
    - intros y _. rewrite lookup_empty. discriminate. }
  split; [vm_compute; reflexivity|]. split; [exact E'|]. split.
  - intros [e He]. rewrite E' in He. discriminate He.
  - split; [eexists; exact E|].
    intros (fs' & e & He). rewrite E in He. discriminate He.
Qed.

(** * Further properties *)

(** ** The tag cleaner: what is removed *)

Lemma sub_tag_length_le (s : string) :
  String.length (sub_tag s) <= String.length s.
Proof.
  funelim (sub_tag s); simp sub_tag; cbn [String.length]; try lia.
  match goal with E : tag_close _ = Some _ |- _ =>
    pose proof (tag_close_shorter _ _ E) end.
  lia.
Qed.

Lemma sub_tag_shorter (s : string) :
  tag_search s = true -> String.length (sub_tag s) < String.length s.
Proof.
  funelim (sub_tag s); simp sub_tag; cbn [String.length tag_search].
  - discriminate.
  - rewrite Heq. cbn [andb orb]. intros Ht. apply H in Ht. lia.
  - intros _. pose proof (sub_tag_length_le rest).
    match goal with E : tag_close _ = Some _ |- _ =>
      pose proof (tag_close_shorter _ _ E) end.
    lia.
  - rewrite Heq. cbn [andb].
    match goal with E : tag_close _ = None |- _ => rewrite E end.
    rewrite bool_decide_eq_false_2 by congruence. cbn [orb].
    intros Ht. apply H in Ht. lia.
Qed.

Lemma sub_newline_length_le (s : string) :
  String.length (sub_newline s) <= String.length s.
Proof.
  induction s as [|c r IH]; simpl; [lia|].
  destruct (Ascii.eqb c newline); simpl; lia.
Qed.

Lemma sub_newline_has_newline (s : string) :
  sub_newline s = s -> has_newline s = false.
Proof. intros E. rewrite <- E. apply sub_newline_no_newline. Qed.

(** X1. [clean_tags] returns its argument unchanged exactly when the
    argument holds no match of the tag pattern and no newline; hence
    cleaning twice gives the same as cleaning once exactly when the first
    cleaning leaves no match of the tag pattern. *)
Theorem clean_tags_unchanged_iff (item : string) :
  (clean_tags item = item <->
   tag_search item = false /\ has_newline item = false) /\
  (clean_tags (clean_tags item) = clean_tags item <->
   tag_search (clean_tags item) = false).
Proof.
  assert (H : forall s, clean_tags s = s <->
                        tag_search s = false /\ has_newline s = false).
  { intros s. split; [|intros [Ht Hn]; apply clean_tags_fixed_point; assumption].
    intros E. split.
    - destruct (tag_search s) eqn:Ht; [|reflexivity].
      apply sub_tag_shorter in Ht.
      pose proof (sub_newline_length_le (sub_tag s)) as Hle.
      unfold clean_tags in E. rewrite E in Hle. lia.
    - rewrite <- E. apply clean_tags_no_newline. }
  split; [apply H|]. rewrite H. split; [intros [Ht _]; exact Ht|].
  intros Ht. split; [exact Ht|apply clean_tags_no_newline].
Qed.

Lemma tag_close_sublist (s rest : string) :
  tag_close s = Some rest -> chars rest `sublist_of` chars s.
Proof.
  revert rest. induction s as [|c r IH]; intros rest; simpl; [discriminate|].
  destruct (Ascii.eqb c ">").
  - intros [= ->]. apply sublist_cons. reflexivity.
  - destruct (Ascii.eqb c newline); [discriminate|].
    intros H. apply sublist_cons, IH, H.
Qed.

Lemma sub_tag_sublist (s : string) : chars (sub_tag s) `sublist_of` chars s.
Proof.
  funelim (sub_tag s); simp sub_tag; cbn [chars list_ascii_of_string].
  - reflexivity.
  - apply sublist_skip. assumption.
  - apply sublist_cons. etransitivity; [eassumption|].
    apply tag_close_sublist. assumption.
  - apply sublist_skip. assumption.
Qed.

Lemma sub_newline_sublist (s : string) :
  chars (sub_newline s) `sublist_of` chars s.
Proof.
  induction s as [|c r IH]; simpl; [reflexivity|].
  destruct (Ascii.eqb c newline); cbn [chars list_ascii_of_string].
  - apply sublist_cons, IH.
  - apply sublist_skip, IH.
Qed.

(** X2. [clean_tags] only deletes: the characters of its result are
    characters of its argument, in the same order, and none of them is a
    newline; so the result is never longer than the argument. *)
Theorem clean_tags_only_deletes (item : string) :
  (chars (clean_tags item) `sublist_of` chars item) /\
  (newline ∉ chars (clean_tags item)) /\
  String.length (clean_tags item) <= String.length item.
Proof.
  split; [|split].
  - unfold clean_tags. etransitivity; [apply sub_newline_sublist|].
    apply sub_tag_sublist.
  - pose proof (clean_tags_no_newline item) as H.
    induction (clean_tags item) as [|c r IH]; cbn [chars list_ascii_of_string].
    + apply not_elem_of_nil.
    + cbn [has_newline] in H. apply orb_false_iff in H as [Hc Hr].
      apply not_elem_of_cons. split; [|apply IH, Hr].
      intros E. rewrite <- E, Ascii.eqb_refl in Hc. discriminate.
  - unfold clean_tags.
    pose proof (sub_newline_length_le (sub_tag item)).
    pose proof (sub_tag_length_le item). lia.
Qed.

(** X3. On an argument without a newline [clean_tags] is the first
    substitution alone, no match of the tag pattern is left, and cleaning
    again changes nothing. *)
Theorem clean_tags_of_single_line (item : string) :
  has_newline item = false ->
  clean_tags item = sub_tag item /\
  tag_search (clean_tags item) = false /\
  clean_tags (clean_tags item) = clean_tags item.
Proof.
  intros Hn.
  assert (E : clean_tags item = sub_tag item).
  { apply sub_newline_id. rewrite sub_tag_has_newline. exact Hn. }
  split; [exact E|]. apply clean_tags_single_line, Hn.
Qed.

Lemma clean_tags_of_single_line_witness :
  clean_tags "<td><a href=x>Al-Qaeda</a></td>" = sub_tag "<td><a href=x>Al-Qaeda</a></td>" /\
  tag_search (clean_tags "<td><a href=x>Al-Qaeda</a></td>") = false /\
  clean_tags (clean_tags "<td><a href=x>Al-Qaeda</a></td>")
  = clean_tags "<td><a href=x>Al-Qaeda</a></td>".
Proof. apply clean_tags_of_single_line. vm_compute. reflexivity. Defined.

(** ** The frame of a page *)

Lemma scrape_page_cases (pg : list wikitable) :
  (Forall (fun t => th t <> []) pg /\
   scrape_page pg
   = Ok (mkDataFrame (fold_left capture pg [])
           (pad (length (fold_left capture pg []))
              <$> concat (table_rows <$> pg)))) \/
  (Exists (fun t => th t = []) pg /\ scrape_page pg = Raise ZeroDivisionError).
Proof.
  destruct (decide (Exists (fun t => th t = []) pg)) as [H|H].
  - right. split; [exact H|apply scrape_page_zero_headers, H].
  - left. apply not_Exists_Forall in H; [|intros t; apply _].
    split; [exact H|apply scrape_page_ok, H].
Qed.

(** X4. The extraction of a page raises exactly when some matched table
    has no header cell, and then the exception is [ZeroDivisionError]: no
    content cell is read out of range and the frame is never refused for
    its width. *)
Theorem scrape_page_raises_iff (pg : list wikitable) :
  (forall e, scrape_page pg = Raise e -> e = ZeroDivisionError) /\
  (scrape_page pg = Raise ZeroDivisionError <->
   Exists (fun t => th t = []) pg) /\
  ((exists df, scrape_page pg = Ok df) <-> Forall (fun t => th t <> []) pg).
Proof.
  destruct (scrape_page_cases pg) as [[HF E]|[HE E]]; rewrite E.
  - split; [intros e [=]|]. split.
    + split; [intros [=]|]. intros HE. exfalso.
      revert HE. apply Forall_not_Exists. exact HF.
    + split; [intros _; exact HF|intros _; eauto].
  - split; [intros e [= <-]; reflexivity|]. split.
    + split; [intros _; exact HE|reflexivity].
    + split; [intros [df [=]]|]. intros HF. exfalso.
      revert HE. apply Forall_not_Exists. exact HF.
Qed.

Lemma length_concat_table_rows (pg : list wikitable) :
  length (concat (table_rows <$> pg)) = sum_list (number_of_rows <$> pg).
Proof.
  induction pg as [|t pg IH]; [reflexivity|].
  cbn [fmap list_fmap concat sum_list_with]. rewrite length_app, IH.
  unfold table_rows at 1. rewrite length_fmap, length_seq. reflexivity.
Qed.

Lemma fold_capture_length (pg : list wikitable) (hl : list string) :
  length (fold_left capture pg hl)
  = length hl `max` max_list (table_width <$> pg).
Proof.
  revert hl. induction pg as [|t pg IH]; intros hl.
  - simpl. lia.
  - cbn [fold_left fmap list_fmap max_list_with]. rewrite IH, capture_length.
    unfold table_width at 2, id.
    destruct (decide (number_of_rows t = 0)); lia.
Qed.

Lemma pad_length (width : nat) (row : list string) :
  length row <= width -> length (pad width row) = width.
Proof.
  intros H. unfold pad. rewrite length_app, length_fmap, length_replicate. lia.
Qed.

(** X5. The frame of a page is rectangular: every row has as many cells as
    there are labels.  It has one row for each complete row of each table,
    and as many labels as the widest table with a complete row has header
    cells. *)
Theorem frame_rectangular (pg : list wikitable) (df : DataFrame) :
  scrape_page pg = Ok df ->
  Forall (fun row => length row = length (columns df)) (values df) /\
  length (values df) = sum_list (number_of_rows <$> pg) /\
  length (columns df) = max_list (table_width <$> pg).
Proof.
  intros Hdf. destruct (scrape_page_cases pg) as [[_ E]|[_ E]];
    rewrite E in Hdf; [|discriminate]. injection Hdf as <-.
  cbn [columns values]. split; [|split].
  - apply Forall_fmap, Forall_forall. intros row Hrow. cbv [compose].
    apply pad_length.
    rewrite (widths_invariant pg [] [] eq_refl). cbn [app].
    apply max_list_elem_of_le, list_elem_of_fmap_2, Hrow.
  - rewrite length_fmap. apply length_concat_table_rows.
  - rewrite fold_capture_length. reflexivity.
Qed.

Lemma frame_rectangular_witness :
  Forall (fun row => length row = 3)
    [[Some "2001-09-11"; Some "Al-Qaeda"; None];
     [Some "2005-07-07"; Some "Al-Qaeda"; None];
     [Some "ETA"; Some "3"; Some "2001-11-06"]] /\
  3 = sum_list (number_of_rows <$> [table_2001; table_wide]) /\
  3 = max_list (table_width <$> [table_2001; table_wide]).
Proof.
  apply (frame_rectangular [table_2001; table_wide]
           (mkDataFrame ["Date"; "Perpetrator"; "Perpetrator"]
              [[Some "2001-09-11"; Some "Al-Qaeda"; None];
               [Some "2005-07-07"; Some "Al-Qaeda"; None];
               [Some "ETA"; Some "3"; Some "2001-11-06"]])).
  vm_compute. reflexivity.
Defined.

Lemma elem_of_concat {A} (x : A) (ls : list (list A)) :
  x ∈ concat ls <-> exists l, l ∈ ls /\ x ∈ l.
Proof.
  induction ls as [|l ls IH]; cbn [concat].
  - split; [intros H; inversion H|intros (l & H & _); inversion H].
  - rewrite elem_of_app, IH. split.
    + intros [H|(l' & H1 & H2)]; [exists l; split; [left|exact H]|].
      exists l'. split; [now right|exact H2].
    + intros (l' & [->|H1]%elem_of_cons & H2); [now left|]. right. eauto.
Qed.

Lemma elem_of_capture (hl : list string) (t : wikitable) (l : string) :
  l ∈ capture hl t -> l ∈ hl \/ exists h, h ∈ th t /\ l = clean_tags h.
Proof.
  unfold capture. destruct (decide (number_of_rows t = 0)); [now left|].
  intros [H|H]%elem_of_app; [now left|]. right.
  apply list_elem_of_fmap in H as (h & -> & Hh).
  exists h. split; [|reflexivity]. exact (subseteq_take _ _ _ Hh).
Qed.

Lemma elem_of_fold_capture (pg : list wikitable) (hl : list string)
    (l : string) :
  l ∈ fold_left capture pg hl ->
  l ∈ hl \/ exists t h, t ∈ pg /\ h ∈ th t /\ l = clean_tags h.
Proof.
  revert hl. induction pg as [|t pg IH]; intros hl; cbn [fold_left].
  - now left.
  - intros H. apply IH in H as [H|(t' & h & Ht' & Hh & ->)].
    + apply elem_of_capture in H as [H|(h & Hh & ->)]; [now left|].
      right. exists t, h. split; [left|]. split; [exact Hh|reflexivity].
    + right. exists t', h. split; [now right|]. split; [exact Hh|reflexivity].
Qed.

Lemma elem_of_table_rows (t : wikitable) (row : list string) (s : string) :
  row ∈ table_rows t -> s ∈ row -> exists c, c ∈ td t /\ s = clean_tags c.
Proof.
  unfold table_rows, table_row.
  intros (r & -> & _)%list_elem_of_fmap (c & -> & Hc)%list_elem_of_fmap.
  exists c. split; [|reflexivity].
  apply subseteq_take in Hc. exact (subseteq_drop _ _ _ Hc).
Qed.

Lemma elem_of_pad (width : nat) (row : list string) (s : string) :
  Some s ∈ pad width row -> s ∈ row.
Proof.
  unfold pad. intros [H|H]%elem_of_app.
  - apply list_elem_of_fmap in H as (s' & [= ->] & Hs). exact Hs.
  - apply elem_of_replicate in H as [H _]. discriminate H.
Qed.

(** X6. Nothing in a frame is made up: every label is the cleaning of a
    header cell of some table of the page, every cell that is not missing
    is the cleaning of a content cell of some table of the page; so no
    label and no cell holds a newline. *)
Theorem frame_cells_from_page (pg : list wikitable) (df : DataFrame) :
  scrape_page pg = Ok df ->
  (forall l, l ∈ columns df ->
     (exists t h, t ∈ pg /\ h ∈ th t /\ l = clean_tags h) /\
     has_newline l = false) /\
  (forall row s, row ∈ values df -> Some s ∈ row ->
     (exists t c, t ∈ pg /\ c ∈ td t /\ s = clean_tags c) /\
     has_newline s = false).
Proof.
  intros Hdf. destruct (scrape_page_cases pg) as [[_ E]|[_ E]];
    rewrite E in Hdf; [|discriminate]. injection Hdf as <-.
  cbn [columns values]. split.
  - intros l Hl.
    apply elem_of_fold_capture in Hl as [Hl|(t & h & Ht & Hh & ->)];
      [inversion Hl|].
    split; [eauto|apply clean_tags_no_newline].
  - intros row s Hrow Hs.
    apply list_elem_of_fmap in Hrow as (row0 & -> & Hrow0).
    apply elem_of_pad in Hs.
    apply elem_of_concat in Hrow0 as (rows & Hrows & Hrow0).
    apply list_elem_of_fmap in Hrows as (t & -> & Ht).
    destruct (elem_of_table_rows t row0 s Hrow0 Hs) as (c & Hc & ->).
    split; [eauto|apply clean_tags_no_newline].
Qed.

Lemma frame_cells_from_page_witness :
  (forall l, l ∈ ["Date"; "Perpetrator"] ->
     (exists t h, t ∈ [table_2001] /\ h ∈ th t /\ l = clean_tags h) /\
     has_newline l = false) /\
  (forall row s,
     row ∈ [[Some "2001-09-11"; Some "Al-Qaeda"];
            [Some "2005-07-07"; Some "Al-Qaeda"]] ->
     Some s ∈ row ->
     (exists t c, t ∈ [table_2001] /\ c ∈ td t /\ s = clean_tags c) /\
     has_newline s = false).
Proof.
  apply (frame_cells_from_page [table_2001] frame_2000).
  vm_compute. reflexivity.
Defined.

Lemma short_table_no_rows (t : wikitable) :
  length (td t) < length (th t) -> number_of_rows t = 0.
Proof. intros H. unfold number_of_rows. apply Nat.div_small, H. Qed.

(** X7. A table with fewer content cells than header cells adds nothing,
    not even its labels: a page made of such tables gives the frame
    without label and without row. *)
Theorem short_tables_give_nothing (pg : list wikitable) :
  Forall (fun t => length (td t) < length (th t)) pg ->
  (forall t st, t ∈ pg -> table_step st t = Ok st) /\
  scrape_page pg = Ok (mkDataFrame [] []).
Proof.
  intros H.
  assert (Hth : Forall (fun t => th t <> []) pg).
  { eapply Forall_impl; [exact H|]. intros t Ht E. cbv beta in Ht.
    rewrite E in Ht. simpl in Ht. lia. }
  assert (Hstep : forall t st, t ∈ pg -> table_step st t = Ok st).
  { intros t [hl cl] Ht.
    rewrite Forall_forall in H. rewrite Forall_forall in Hth.
    rewrite table_step_ok by (apply Hth, Ht).
    rewrite capture_stable by (left; apply short_table_no_rows, H, Ht).
    unfold table_rows. rewrite short_table_no_rows by (apply H, Ht).
    cbn. rewrite app_nil_r. reflexivity. }
  split; [exact Hstep|].
  unfold scrape_page.
  assert (E : for_each table_step pg ([], []) = Ok ([], [])).
  { generalize (@nil string, @nil (list string)). intros st.
    induction pg as [|t pg IH]; [reflexivity|]. cbn [for_each].
    rewrite Hstep by left. cbn [mbind result_bind].
    apply IH.
    - apply Forall_inv_tail in H. exact H.
    - apply Forall_inv_tail in Hth. exact Hth.
    - intros t' st' Ht'. apply Hstep. now right. }
  rewrite E. reflexivity.
Qed.

Lemma short_tables_give_nothing_witness :
  (forall t st, t ∈ [Wikitable [th_date; th_perp] ["<td>2001</td>"]] ->
                table_step st t = Ok st) /\
  scrape_page [Wikitable [th_date; th_perp] ["<td>2001</td>"]]
  = Ok (mkDataFrame [] []).
Proof.
  apply (short_tables_give_nothing
           [Wikitable [th_date; th_perp] ["<td>2001</td>"]]).
  repeat constructor.
Defined.

Lemma capture_prefix (hl : list string) (t : wikitable) :
  hl `prefix_of` capture hl t.
Proof.
  unfold capture. destruct (decide (number_of_rows t = 0)); [reflexivity|].
  apply prefix_app_r. reflexivity.
Qed.

Lemma fold_capture_prefix (pg : list wikitable) (hl : list string) :
  hl `prefix_of` fold_left capture pg hl.
Proof.
  revert hl. induction pg as [|t pg IH]; intros hl; cbn [fold_left].
  - reflexivity.
  - etransitivity; [apply capture_prefix|apply IH].
Qed.

Lemma pad_prefix (w w' : nat) (row : list string) :
  w <= w' -> pad w row `prefix_of` pad w' row.
Proof.
  intros H. unfold pad. apply prefix_app.
  replace (w' - length row) with ((w - length row) + (w' - length row - (w - length row)))
    by lia.
  rewrite replicate_add. apply prefix_app_r. reflexivity.
Qed.

(** ** The counter: exceptions and order *)

Lemma column_tolist_elem (df : DataFrame) (name : string) :
  name ∈ columns df ->
  exists vs, column_tolist df name = Ok vs /\
    length vs = length (values df) /\
    (length (positions name (columns df) 0) = 1 ->
       Forall (fun x => is_nested x = false) vs) /\
    (2 <= length (positions name (columns df) 0) ->
       Forall (fun x => is_nested x = true) vs).
Proof.
  intros Hin. unfold column_tolist.
  destruct (positions name (columns df) 0) as [|i [|j ps]] eqn:E.
  - apply positions_nil_iff in E. contradiction.
  - eexists. split; [reflexivity|]. rewrite length_fmap.
    split; [reflexivity|]. split; [|simpl; lia].
    intros _. apply Forall_fmap, Forall_forall. reflexivity.
  - eexists. split; [reflexivity|]. rewrite length_fmap.
    split; [reflexivity|]. split; [simpl; lia|].
    intros _. apply Forall_fmap, Forall_forall. reflexivity.
Qed.

Lemma selected_label_elem (df : DataFrame) (name : string) :
  selected_label df = Some name ->
  name ∈ columns df /\ perpetrators_of df = column_tolist df name.
Proof.
  unfold selected_label, perpetrators_of.
  destruct (decide ("Perpetrator" ∈ columns df)) as [H|_].
  - intros [= <-]. split; [exact H|reflexivity].
  - destruct (decide ("Perpetrators" ∈ columns df)) as [H|_]; [|discriminate].
    intros [= <-]. split; [exact H|reflexivity].
Qed.

Lemma selected_label_none (df : DataFrame) :
  selected_label df = None -> perpetrators_of df = Ok [].
Proof.
  unfold selected_label, perpetrators_of.
  destruct (decide ("Perpetrator" ∈ columns df)); [discriminate|].
  destruct (decide ("Perpetrators" ∈ columns df)); [discriminate|].
  reflexivity.
Qed.

(** The lookup of the column never raises: the label is looked up only
    after the test that it is there. *)
Lemma perpetrators_of_total (df : DataFrame) :
  perpetrators_of df = Ok (objects_of df).
Proof.
  unfold objects_of. destruct (selected_label df) as [name|] eqn:E.
  - apply selected_label_elem in E as [Hin ->].
    destruct (column_tolist_elem df name Hin) as (vs & -> & _). reflexivity.
  - rewrite (selected_label_none df E). reflexivity.
Qed.

Lemma objects_of_nested (df : DataFrame) :
  Exists (fun x => is_nested x = true) (objects_of df) <-> ambiguous df.
Proof.
  unfold objects_of, ambiguous.
  destruct (selected_label df) as [name|] eqn:E.
  - destruct (selected_label_elem df name E) as [Hin ->].
    destruct (column_tolist_elem df name Hin) as (vs & -> & Hlen & H1 & H2).
    assert (Hpos : length (positions name (columns df) 0) <> 0).
    { intros H0. apply length_zero_iff_nil, positions_nil_iff in H0.
      contradiction. }
    split.
    + intros Hex. exists name. split; [reflexivity|].
      assert (Hvs : vs <> []) by (intros ->; inversion Hex).
      split.
      * destruct (decide (length (positions name (columns df) 0) = 1))
          as [Hone|]; [|lia].
        exfalso. apply H1 in Hone. apply Exists_exists in Hex as (x & Hx & Hn).
        rewrite Forall_forall in Hone. rewrite (Hone x Hx) in Hn. discriminate.
      * intros Hv. rewrite Hv in Hlen. destruct vs; [congruence|discriminate].
    + intros (name' & [= <-] & Htwo & Hv). apply H2 in Htwo.
      destruct vs as [|x vs].
      * destruct (values df); [congruence|discriminate].
      * left. apply Forall_inv in Htwo. exact Htwo.
  - rewrite (selected_label_none df E). split.
    + intros H. inversion H.
    + intros (name & [=] & _).
Qed.

Lemma collect_loop_total (frames : list DataFrame) (ps : list pyobj) :
  for_each collect_step frames ps = Ok (ps ++ concat (objects_of <$> frames)).
Proof.
  revert ps. induction frames as [|df frames IH]; intros ps.
  - cbn. rewrite app_nil_r. reflexivity.
  - cbn [for_each].
    rewrite (collect_step_ok _ _ _ (perpetrators_of_total df)).
    cbn [mbind result_bind]. rewrite IH. cbn [fmap list_fmap concat].
    rewrite app_assoc. reflexivity.
Qed.

Lemma collect_perpetrators_total (data : list (string * DataFrame)) :
  collect_perpetrators data = Ok (concat (objects_of <$> data.*2)).
Proof. apply (collect_loop_total data.*2 []). Qed.

Lemma Counter_loop_cases (l : list pyobj) (c : gmap (option string) nat) :
  (Forall (fun x => is_nested x = false) l /\
   for_each (fun c x => match x with
                        | Scalar k => Ok (count_up k c)
                        | Nested _ => Raise TypeError
                        end) l c
   = Ok (count_all (omap scalar_of l) c)) \/
  (Exists (fun x => is_nested x = true) l /\
   for_each (fun c x => match x with
                        | Scalar k => Ok (count_up k c)
                        | Nested _ => Raise TypeError
                        end) l c
   = Raise TypeError).
Proof.
  revert c. induction l as [|[k|cs] l IH]; intros c.
  - left. split; [constructor|reflexivity].
  - cbn [for_each mbind result_bind omap list_omap scalar_of].
    destruct (IH (count_up k c)) as [[HF E]|[HE E]].
    + left. split; [constructor; [reflexivity|exact HF]|exact E].
    + right. split; [now right|exact E].
  - right. split; [left; reflexivity|reflexivity].
Qed.

Lemma Counter_cases (l : list pyobj) :
  (Forall (fun x => is_nested x = false) l /\
   Counter l = Ok (count_all (omap scalar_of l) ∅)) \/
  (Exists (fun x => is_nested x = true) l /\ Counter l = Raise TypeError).
Proof. apply Counter_loop_cases. Qed.

Lemma get_perpetrators_eq (data : list (string * DataFrame)) :
  get_perpetrators data = Counter (concat (objects_of <$> data.*2)).
Proof.
  unfold get_perpetrators. rewrite collect_perpetrators_total. reflexivity.
Qed.

Lemma Exists_concat_objects (frames : list DataFrame) :
  Exists (fun x => is_nested x = true) (concat (objects_of <$> frames)) <->
  Exists ambiguous frames.
Proof.
  induction frames as [|df frames IH]; cbn [fmap list_fmap concat].
  - split; intros H; inversion H.
  - rewrite Exists_app, Exists_cons, IH, objects_of_nested. reflexivity.
Qed.

(** X9. The counter raises exactly when, in some year's frame with at
    least one row, the label it looks up is on several columns; the
    exception is then [TypeError].  It never raises [KeyError]: a label is
    looked up only in a frame that has it. *)
Theorem get_perpetrators_raises_iff (data : list (string * DataFrame)) :
  (forall e, get_perpetrators data = Raise e -> e = TypeError) /\
  (get_perpetrators data = Raise TypeError <-> Exists ambiguous data.*2) /\
  ((exists t, get_perpetrators data = Ok t) <-> ~ Exists ambiguous data.*2).
Proof.
  rewrite get_perpetrators_eq, <- Exists_concat_objects.
  destruct (Counter_cases (concat (objects_of <$> data.*2)))
    as [[HF E]|[HE E]]; rewrite E.
  - assert (Hno : ~ Exists (fun x => is_nested x = true)
                      (concat (objects_of <$> data.*2))).
    { intros HE. apply Exists_exists in HE as (x & Hx & Hn).
      rewrite Forall_forall in HF. rewrite (HF x Hx) in Hn. discriminate. }
    split; [intros e [=]|]. split.
    + split; [intros [=]|intros HE; contradiction].
    + split; [intros _; exact Hno|intros _; eauto].
  - split; [intros e [= <-]; reflexivity|]. split.
    + split; [intros _; exact HE|reflexivity].
    + split; [intros [t [=]]|intros Hno; contradiction].
Qed.

Lemma occurrences_Permutation (k : option string)
    (l l' : list (option string)) :
  l ≡ₚ l' -> occurrences k l = occurrences k l'.
Proof. intros H. unfold occurrences. rewrite H. reflexivity. Qed.

Lemma count_all_Permutation (l l' : list (option string))
    (c : gmap (option string) nat) :
  l ≡ₚ l' -> count_all l c = count_all l' c.
Proof.
  intros H. apply map_eq. intros k.
  rewrite !count_all_lookup, (occurrences_Permutation k l l' H). reflexivity.
Qed.

Lemma Counter_Permutation (l l' : list pyobj) :
  l ≡ₚ l' -> Counter l = Counter l'.
Proof.
  intros H.
  destruct (Counter_cases l) as [[HF E]|[HE E]];
    destruct (Counter_cases l') as [[HF' E']|[HE' E']]; rewrite E, E'.
  - f_equal. apply count_all_Permutation. rewrite H. reflexivity.
  - exfalso. rewrite <- H in HE'. apply Exists_exists in HE' as (x & Hx & Hn).
    rewrite Forall_forall in HF. rewrite (HF x Hx) in Hn. discriminate.
  - exfalso. rewrite H in HE. apply Exists_exists in HE as (x & Hx & Hn).
    rewrite Forall_forall in HF'. rewrite (HF' x Hx) in Hn. discriminate.
  - reflexivity.
Qed.

Lemma concat_objects_Permutation (frames frames' : list DataFrame) :
  frames ≡ₚ frames' ->
  concat (objects_of <$> frames) ≡ₚ concat (objects_of <$> frames').
Proof.
  induction 1 as [|df l l' _ IH|df1 df2 l|l1 l2 l3 _ IH1 _ IH2];
    cbn [fmap list_fmap concat].
  - reflexivity.
  - rewrite IH. reflexivity.
  - rewrite !app_assoc. apply Permutation_app_tail, Permutation_app_comm.
  - etransitivity; eassumption.
Qed.

(** X10. The tally does not depend on the order of the years: the same
    frames in another order give the same tally, or the same exception. *)
Theorem tally_order_independent (data data' : list (string * DataFrame)) :
  data ≡ₚ data' -> get_perpetrators data = get_perpetrators data'.
Proof.
  intros H. rewrite !get_perpetrators_eq.
  apply Counter_Permutation, concat_objects_Permutation.
  rewrite H. reflexivity.
Qed.

Lemma tally_order_independent_witness :
  get_perpetrators [("2014", frame_isis); ("2015", frame_taliban)]
  = get_perpetrators [("2015", frame_taliban); ("2014", frame_isis)].
Proof. apply tally_order_independent. apply perm_swap. Defined.

(** X11. A frame without a "Perpetrator" and without a "Perpetrators"
    column, and a frame without rows, add nothing to the tally: the tally
    is that of the other years. *)
Theorem tally_skips_frames (data1 data2 : list (string * DataFrame))
    (year : string) (df : DataFrame) :
  selected_label df = None \/ values df = [] ->
  get_perpetrators (data1 ++ (year, df) :: data2)
  = get_perpetrators (data1 ++ data2).
Proof.
  intros H. rewrite !get_perpetrators_eq.
  assert (E : objects_of df = []).
  { unfold objects_of. destruct H as [H|H].
    - rewrite (selected_label_none df H). reflexivity.
    - destruct (selected_label df) as [name|] eqn:El.
      + destruct (selected_label_elem df name El) as [Hin ->].
        destruct (column_tolist_elem df name Hin) as (vs & -> & Hlen & _).
        rewrite H in Hlen. destruct vs; [reflexivity|discriminate].
      + rewrite (selected_label_none df El). reflexivity. }
  rewrite !fmap_app. cbn [fmap list_fmap snd].
  rewrite !concat_app. cbn [concat].
  rewrite E. reflexivity.
Qed.

Lemma tally_skips_frames_witness :
  get_perpetrators ([("2014", frame_isis)] ++
                    ("2001", mkDataFrame ["Date"; "Dead"]
                               [[Some "2001-09-11"; Some "3"]])
                    :: [("2015", frame_taliban)])
  = get_perpetrators ([("2014", frame_isis)] ++ [("2015", frame_taliban)]).
Proof.
  apply tally_skips_frames. left. vm_compute. reflexivity.
Defined.

(** ** Extraction and counting together *)

Lemma positions_bound (name : string) (cols : list string) (k j : nat) :
  j ∈ positions name cols k -> k <= j < k + length cols.
Proof.
  revert k. induction cols as [|c cols IH]; intros k; cbn [positions length].
  - intros H. inversion H.
  - destruct (decide (c = name)).
    + intros [->|H]%elem_of_cons; [lia|]. apply IH in H. lia.
    + intros H. apply IH in H. lia.
Qed.

(** X12. Extraction and counting together, for a page with one table
    whose cleaned header cells hold "Perpetrator" once, at place [i], and
    which has a complete row: the tally counts the cleaned content cells at
    the places [r * N + i], one for each of the [M // N] rows. *)
Theorem one_table_tally (t : wikitable) (year : string) (i : nat) :
  positions "Perpetrator" (clean_tags <$> th t) 0 = [i] ->
  number_of_rows t <> 0 ->
  exists df tally,
    scrape_page [t] = Ok df /\
    get_perpetrators [(year, df)] = Ok tally /\
    forall k,
      tally !! k
      = let n := occurrences k (table_cell t i <$> seq 0 (number_of_rows t)) in
        if decide (n = 0) then None else Some n.
Proof.
  intros Hpos Hrows.
  assert (Hth : th t <> []).
  { intros E. apply Hrows. unfold number_of_rows. rewrite E. reflexivity. }
  assert (Hi : i < length (th t)).
  { pose proof (positions_bound "Perpetrator" (clean_tags <$> th t) 0 i) as Hb.
    rewrite Hpos, length_fmap in Hb. apply Hb. left. }
  set (df := mkDataFrame (clean_tags <$> th t)
               ((fun row : list string => Some <$> row) <$> table_rows t)).
  assert (Hdf : scrape_page [t] = Ok df).
  { rewrite scrape_page_single by exact Hth.
    rewrite capture_first by exact Hrows. reflexivity. }
  assert (Hin : "Perpetrator" ∈ columns df).
  { cbn [df columns]. apply dec_stable. intros Hn.
    apply (positions_nil_iff _ _ 0) in Hn. rewrite Hn in Hpos. discriminate. }
  assert (Hvals : perpetrators_of df
                  = Ok (Scalar <$> (table_cell t i <$> seq 0 (number_of_rows t)))).
  { rewrite perpetrators_of_perpetrator by exact Hin.
    unfold column_tolist. cbn [df columns values]. rewrite Hpos.
    f_equal. unfold table_rows.
    rewrite <- !list_fmap_compose. apply list_fmap_ext.
    intros j r Hr. apply lookup_seq in Hr as [E Hr]. cbn [Nat.add] in E.
    subst j. cbn [compose]. f_equal. unfold cell_at, table_cell, table_row.
    rewrite !list_lookup_fmap, lookup_take_lt, lookup_drop by exact Hi.
    destruct (td t !! (r * length (th t) + i)); reflexivity. }
  exists df, (count_all (table_cell t i <$> seq 0 (number_of_rows t)) ∅).
  split; [exact Hdf|]. split.
  - unfold get_perpetrators, collect_perpetrators. cbn [fmap list_fmap snd for_each].
    rewrite (collect_step_ok _ _ _ Hvals). cbn [mbind result_bind app].
    apply Counter_scalars.
  - intros k. cbv zeta. rewrite count_all_lookup, lookup_empty.
    destruct (decide (occurrences k (table_cell t i <$> seq 0 (number_of_rows t)) = 0));
      reflexivity.
Qed.

Lemma one_table_tally_witness :
  exists df tally,
    scrape_page [table_2001] = Ok df /\
    get_perpetrators [("2001", df)] = Ok tally /\
    tally !! Some "Al-Qaeda" = Some 2 /\
    tally !! Some "2001-09-11" = None.
Proof.
  destruct (one_table_tally table_2001 "2001" 1) as (df & tally & H1 & H2 & H3).
  - vm_compute. reflexivity.
  - vm_compute. lia.
  - exists df, tally. split; [exact H1|]. split; [exact H2|].
    rewrite !H3. split; vm_compute; reflexivity.
Defined.

(** ** The constructor: ranges, failures, files *)

(** X13. With [stop_year < start_year] the range of years is empty: no page
    is asked for, the object has no data and an empty tally, and nothing is
    written, not even the directory, whatever [save_csv] is. *)
Theorem empty_range_empty_object
    (wikitables_at : string -> result (list wikitable))
    (storage_get : string -> list string) (to_csv : DataFrame -> string)
    (start_year stop_year : Z) (save_csv : bool) (csv_path : string)
    (fs : gmap (list string) node) :
  (stop_year < start_year)%Z ->
  init wikitables_at storage_get to_csv start_year stop_year save_csv
       csv_path fs
  = (fs, Ok (mkWikiScraper [] ∅)).
Proof.
  intros H. rewrite init_eq, build_data_eq.
  unfold py_range. rewrite seqZ_nil by lia. cbn [for_each].
  change (get_perpetrators []) with (@Ok (gmap (option string) nat) ∅).
  destruct save_csv; reflexivity.
Qed.

Lemma empty_range_empty_object_witness :
  init web in_cwd plain_csv 2019 1999 true "csv_data" ∅
  = (∅, Ok (mkWikiScraper [] ∅)).
Proof. apply empty_range_empty_object. lia. Defined.

(** X14. When the request for the page of a year fails, its exception
    leaves [scrape_tables] as it is; and when the years before it in the
    range were scraped, it leaves the constructor as it is: the run ends
    with that exception, no object, and no file written. *)
Theorem fetch_failure_ends_run
    (wikitables_at : string -> result (list wikitable))
    (storage_get : string -> list string) (to_csv : DataFrame -> string)
    (start_year stop_year y : Z) (save_csv : bool) (csv_path : string)
    (fs : gmap (list string) node) (e : exn) :
  (start_year <= y <= stop_year)%Z ->
  wikitables_at (prefix +:+ py_str y) = Raise e ->
  (forall y', (start_year <= y' < y)%Z ->
              exists df, scrape_tables wikitables_at y' = Ok df) ->
  scrape_tables wikitables_at y = Raise e /\
  init wikitables_at storage_get to_csv start_year stop_year save_csv
       csv_path fs
  = (fs, Raise e).
Proof.
  intros Hy He Hbefore.
  assert (Hs : scrape_tables wikitables_at y = Raise e).
  { rewrite scrape_tables_eq, He. reflexivity. }
  split; [exact Hs|]. apply init_build_raise.
  apply (build_data_first_raise _ _ _ y); assumption.
Qed.

Lemma fetch_failure_ends_run_witness :
  (forall y', (2000 <= y' < 2002)%Z ->
              exists df, scrape_tables web_gap y' = Ok df) /\
  scrape_tables web_gap 2002 = Raise URLError /\
  init web_gap in_cwd plain_csv 2000 2005 true "csv_data" ∅
  = (∅, Raise URLError).
Proof.
  assert (Hbefore : forall y', (2000 <= y' < 2002)%Z ->
                      exists df, scrape_tables web_gap y' = Ok df).
  { intros y' Hy'. assert (Hc : y' = 2000%Z \/ y' = 2001%Z) by lia.
    destruct Hc as [-> | ->]; eexists; vm_compute; reflexivity. }
  split; [exact Hbefore|].
  apply (fetch_failure_ends_run web_gap in_cwd plain_csv 2000 2005 2002).
  - lia.
  - vm_compute. reflexivity.
  - exact Hbefore.
Defined.

(** X15. With [save_csv] false the file system is never touched, whatever
    the run does; and saving changes nothing of the object: a run that
    ends normally with saving builds the object the run without saving
    builds. *)
Theorem save_flag_only_writes
    (wikitables_at : string -> result (list wikitable))
    (storage_get : string -> list string) (to_csv : DataFrame -> string)
    (start_year stop_year : Z) (csv_path : string)
    (fs : gmap (list string) node) :
  (init wikitables_at storage_get to_csv start_year stop_year false
        csv_path fs).1 = fs /\
  forall fs' self,
    init wikitables_at storage_get to_csv start_year stop_year true
         csv_path fs = (fs', Ok self) ->
    init wikitables_at storage_get to_csv start_year stop_year false
         csv_path fs = (fs, Ok self).
Proof.
  rewrite !init_eq.
  destruct (build_data wikitables_at start_year stop_year) as [d|e];
    [|split; [reflexivity|intros ? ? [=]]].
  destruct (get_perpetrators d) as [t|e];
    [|split; [reflexivity|intros ? ? [=]]].
  cbv zeta. split; [reflexivity|]. intros fs' self.
  destruct (save_all to_csv (storage_get csv_path) d fs) as [fs1 [[]|e]]; cbn.
  - intros [= _ <-]. reflexivity.
  - intros [=].
Qed.

(** X16. Each year has its own page, its own key in the collection and its
    own file: for different years the addresses differ, the
    keys [str(year)] differ, and so do the file paths. *)
Theorem years_kept_apart (dir : list string) (a b : Z) :
  a <> b ->
  py_str a <> py_str b /\
  prefix +:+ py_str a <> prefix +:+ py_str b /\
  csv_file dir (py_str a) <> csv_file dir (py_str b).
Proof.
  intros Hab. split; [|split].
  - intros E. apply Hab, py_str_inj, E.
  - intros E. apply (inj (String.app prefix)) in E. apply Hab, py_str_inj, E.
  - intros E. apply csv_file_inj in E. apply Hab, py_str_inj, E.
Qed.

Lemma years_kept_apart_witness :
  py_str 1999 <> py_str 2019 /\
  prefix +:+ py_str 1999 <> prefix +:+ py_str 2019 /\
  csv_file ["csv_data"] (py_str 1999) <> csv_file ["csv_data"] (py_str 2019).
Proof. apply years_kept_apart. lia. Defined.

Lemma save_flag_only_writes_witness :
  init web in_cwd plain_csv 2001 2001 false "csv_data" ∅
  = (∅, Ok (mkWikiScraper [("2001", frame_empty)] ∅)).
Proof.
  destruct (save_flag_only_writes web in_cwd plain_csv 2001 2001 "csv_data" ∅)
    as [_ H].
  apply (H (written plain_csv ["csv_data"] [("2001", frame_empty)] ∅)).
  rewrite init_eq.
  assert (Hd : build_data web 2001 2001 = Ok [("2001", frame_empty)])
    by (vm_compute; reflexivity).
  rewrite Hd.
  assert (Ht : get_perpetrators [("2001", frame_empty)] = Ok ∅)
    by (vm_compute; reflexivity).
  rewrite Ht. cbv zeta.
  rewrite (save_all_ok plain_csv (in_cwd "csv_data")).
  - reflexivity.
  - intros q c _. rewrite lookup_empty. discriminate.
  - intros y _. rewrite lookup_empty. discriminate.
Defined.

(** [mkdir] when the path itself is a regular file and nothing above it
    is. *)
Lemma mkdir_from_file (fs : gmap (list string) node) (done todo : list string)
    (c : string) :
  todo <> [] ->
  stat fs done = Some Dir ->
  fs !! (done ++ todo) = Some (File c) ->
  (forall q c', q ∈ ancestors done todo -> q <> done ++ todo ->
                fs !! q <> Some (File c')) ->
  mkdir_from fs done todo = Raise FileExistsError.
Proof.
  revert fs done. induction todo as [|n todo IH]; intros fs done Hne Hdone Hfile Hway;
    [congruence|].
  destruct todo as [|n' todo].
  - cbn [mkdir_from]. rewrite Hfile. reflexivity.
  - assert (Hlen : done ++ [n] <> done ++ n :: n' :: todo).
    { intros E. apply (f_equal length) in E. rewrite !length_app in E.
      simpl in E. lia. }
    assert (Hrest : (done ++ [n]) ++ n' :: todo = done ++ n :: n' :: todo)
      by (rewrite <- app_assoc; reflexivity).
    cbn [mkdir_from].
    destruct (fs !! (done ++ [n])) as [[|c']|] eqn:E.
    + apply IH.
      * discriminate.
      * rewrite stat_snoc. exact E.
      * rewrite Hrest. exact Hfile.
      * intros q c' Hq Hneq. apply Hway; [now right|]. rewrite <- Hrest. exact Hneq.
    + exfalso. apply (Hway (done ++ [n]) c'); [left|exact Hlen|exact E].
    + unfold os_mkdir. rewrite Hdone, E. cbn [mbind result_bind].
      apply IH.
      * discriminate.
      * rewrite stat_snoc. apply lookup_insert_eq.
      * rewrite Hrest, lookup_insert_ne by exact Hlen. exact Hfile.
      * intros q c' Hq Hneq. rewrite lookup_insert_ne.
        -- apply Hway; [now right|]. rewrite <- Hrest. exact Hneq.
        -- intros Heq. apply ancestors_longer in Hq. rewrite Heq in Hq. lia.
Qed.

(** X17. A regular file where the directory is to be: [mkdir] with
    [exist_ok] accepts an existing directory only, so the first turn of the
    writing loop raises [FileExistsError]; the constructor ends with it
    after all the scraping, and nothing is written.  The same run without
    saving ends normally. *)
Theorem file_in_place_of_directory
    (wikitables_at : string -> result (list wikitable))
    (storage_get : string -> list string) (to_csv : DataFrame -> string)
    (start_year stop_year : Z) (csv_path : string)
    (fs : gmap (list string) node) (d : list (string * DataFrame))
    (t : gmap (option string) nat) (c : string) :
  build_data wikitables_at start_year stop_year = Ok d ->
  d <> [] ->
  get_perpetrators d = Ok t ->
  storage_get csv_path <> [] ->
  fs !! storage_get csv_path = Some (File c) ->
  (forall q c', q ∈ ancestors [] (storage_get csv_path) ->
                q <> storage_get csv_path -> fs !! q <> Some (File c')) ->
  init wikitables_at storage_get to_csv start_year stop_year true csv_path fs
  = (fs, Raise FileExistsError) /\
  init wikitables_at storage_get to_csv start_year stop_year false csv_path fs
  = (fs, Ok (mkWikiScraper d t)).
Proof.
  intros Hd Hne Ht Hdir Hfile Hway. rewrite !init_eq, Hd, Ht. cbv zeta.
  split; [|reflexivity].
  destruct d as [|[year df] d]; [congruence|].
  rewrite save_all_cons. unfold mkdir_parents_exist_ok.
  rewrite (mkdir_from_file fs [] (storage_get csv_path) c); try assumption.
  - reflexivity.
  - reflexivity.
Qed.

Lemma file_in_place_of_directory_witness :
  init web in_cwd plain_csv 2000 2001 true "csv_data"
       (<[ ["csv_data"] := File "notes" ]> ∅)
  = (<[ ["csv_data"] := File "notes" ]> ∅, Raise FileExistsError) /\
  init web in_cwd plain_csv 2000 2001 false "csv_data"
       (<[ ["csv_data"] := File "notes" ]> ∅)
  = (<[ ["csv_data"] := File "notes" ]> ∅, Ok scraper_2000_2001).
Proof.
  apply (file_in_place_of_directory web in_cwd plain_csv 2000 2001 "csv_data"
           (<[ ["csv_data"] := File "notes" ]> ∅) data_2000_2001
           {[ Some "Al-Qaeda" := 2 ]} "notes").
  - vm_compute. reflexivity.
  - discriminate.
  - vm_compute. reflexivity.
  - discriminate.
  - apply lookup_insert_eq.
  - intros q c' Hq Hneq. cbn in Hq. apply list_elem_of_singleton in Hq.
    contradiction.
Defined.

Lemma save_all_app (to_csv : DataFrame -> string) (dir : list string)
    (items1 items2 : list (string * DataFrame)) (fs : gmap (list string) node) :
  save_all to_csv dir (items1 ++ items2) fs
  = match save_all to_csv dir items1 fs with
    | (fs1, Ok _) => save_all to_csv dir items2 fs1
    | (fs1, Raise e) => (fs1, Raise e)
    end.
Proof.
  revert fs. induction items1 as [|[year df] items1 IH]; intros fs.
  - reflexivity.
  - cbn [app]. rewrite !save_all_cons.
    destruct (mkdir_parents_exist_ok fs dir) as [fs1|e]; [|reflexivity].
    destruct (write_text fs1 (csv_file dir year) (to_csv df)) as [fs2|e];
      [apply IH|reflexivity].
Qed.

(** X18. The writing loop does not undo what it wrote: when the file of a
    year cannot be written because a directory has its name, the loop
    raises [IsADirectoryError] there, the files of the years before it are
    written, and those of the years after it are not touched. *)
Theorem writing_stops_without_undo (to_csv : DataFrame -> string)
    (dir : list string) (items1 items2 : list (string * DataFrame))
    (year : string) (df : DataFrame) (fs : gmap (list string) node) :
  way_clear dir fs ->
  files_free dir items1.*1 fs ->
  NoDup items1.*1 ->
  year ∉ items1.*1 ->
  fs !! csv_file dir year = Some Dir ->
  exists fs',
    save_all to_csv dir (items1 ++ (year, df) :: items2) fs
    = (fs', Raise IsADirectoryError) /\
    (forall y d, (y, d) ∈ items1 ->
       fs' !! csv_file dir y = Some (File (to_csv d))) /\
    (forall y, y ∉ items1.*1 -> fs' !! csv_file dir y = fs !! csv_file dir y).
Proof.
  intros Hway Hfree Hnd Hyear Hdir.
  set (fs1 := written to_csv dir items1 fs).
  assert (Hother : forall y, y ∉ items1.*1 ->
            fs1 !! csv_file dir y = fs !! csv_file dir y).
  { intros y Hy. unfold fs1. rewrite written_lookup_other.
    - destruct items1; [reflexivity|].
      rewrite made_lookup, decide_False by apply csv_file_not_ancestor.
      reflexivity.
    - intros y' Hy' E. apply csv_file_inj in E. congruence. }
  exists (made fs1 (ancestors [] dir)). split; [|split].
  - rewrite save_all_app, (save_all_ok to_csv dir items1 fs Hway Hfree).
    fold fs1. rewrite save_all_cons.
    rewrite mkdir_parents_exist_ok_ok by (apply written_way_clear, Hway).
    unfold write_text.
    pose proof (csv_file_not_ancestor dir year) as Hna. unfold csv_file in *.
    rewrite removelast_last, stat_made_dir, stat_snoc, made_lookup.
    rewrite decide_False by exact Hna.
    rewrite (Hother year Hyear), Hdir. reflexivity.
  - intros y d Hin.
    rewrite made_lookup, decide_False by apply csv_file_not_ancestor.
    apply written_lookup_file; assumption.
  - intros y Hy.
    rewrite made_lookup, decide_False by apply csv_file_not_ancestor.
    apply Hother, Hy.
Qed.

Lemma writing_stops_without_undo_witness :
  exists fs',
    save_all plain_csv ["csv_data"]
      ([("2000", frame_2000)] ++ ("2001", frame_empty) :: [("2002", frame_isis)])
      (<[ ["csv_data"; "2001.csv"] := Dir ]> (<[ ["csv_data"] := Dir ]> ∅))
    = (fs', Raise IsADirectoryError) /\
    fs' !! ["csv_data"; "2000.csv"] = Some (File (plain_csv frame_2000)) /\
    fs' !! ["csv_data"; "2002.csv"] = None.
Proof.
  destruct (writing_stops_without_undo plain_csv ["csv_data"]
              [("2000", frame_2000)] [("2002", frame_isis)] "2001" frame_empty
              (<[ ["csv_data"; "2001.csv"] := Dir ]> (<[ ["csv_data"] := Dir ]> ∅)))
    as (fs' & H1 & H2 & H3).
  - intros q c Hq. cbn in Hq. apply list_elem_of_singleton in Hq. subst q.
    rewrite lookup_insert_ne, lookup_insert_eq by discriminate. discriminate.
  - intros y Hy. cbn in Hy. apply list_elem_of_singleton in Hy. subst y.
    change (csv_file ["csv_data"] "2000") with ["csv_data"; "2000.csv"].
    rewrite !lookup_insert_ne, lookup_empty by discriminate. discriminate.
  - cbn. apply NoDup_singleton.
  - cbn. intros Hy. apply list_elem_of_singleton in Hy. discriminate.
  - change (csv_file ["csv_data"] "2001") with ["csv_data"; "2001.csv"].
    apply lookup_insert_eq.
  - exists fs'. split; [exact H1|]. split.
    + apply (H2 "2000" frame_2000). left.
    + change ["csv_data"; "2002.csv"] with (csv_file ["csv_data"] "2002").
      rewrite H3.
      * change (csv_file ["csv_data"] "2002") with ["csv_data"; "2002.csv"].
        rewrite !lookup_insert_ne, lookup_empty by discriminate. reflexivity.
      * cbn. intros Hy. apply list_elem_of_singleton in Hy. discriminate.
Defined.

Lemma build_data_inv (wikitables_at : string -> result (list wikitable))
    (start_year stop_year : Z) (d : list (string * DataFrame)) :
  build_data wikitables_at start_year stop_year = Ok d ->
  (forall y, (start_year <= y <= stop_year)%Z ->
     scrape_tables wikitables_at y = Ok (frame_of wikitables_at y)) /\
  d = entry (frame_of wikitables_at) <$> py_range start_year (stop_year + 1).
Proof.
  intros Hd.
  assert (Hall : forall y, (start_year <= y <= stop_year)%Z ->
            scrape_tables wikitables_at y = Ok (frame_of wikitables_at y)).
  { intros y Hy. unfold frame_of.
    destruct (scrape_tables wikitables_at y) as [df|e] eqn:E; [reflexivity|].
    destruct (build_data_raise wikitables_at _ _ _ _ Hy E) as [e' He'].
    rewrite He' in Hd. discriminate. }
  split; [exact Hall|].
  rewrite (build_data_ok wikitables_at _ _ _ Hall) in Hd. congruence.
Qed.

(** X19. Whenever the constructor builds an object, every year of the range
    was scraped without exception, [data] holds exactly these years' frames
    under the keys [str(year)] in order, and [perpetrators] is the tally of
    that [data]; without saving the file system is as before. *)
Theorem built_object_invariant
    (wikitables_at : string -> result (list wikitable))
    (storage_get : string -> list string) (to_csv : DataFrame -> string)
    (start_year stop_year : Z) (save_csv : bool) (csv_path : string)
    (fs fs' : gmap (list string) node) (self : WikiScraper) :
  init wikitables_at storage_get to_csv start_year stop_year save_csv
       csv_path fs = (fs', Ok self) ->
  (forall y, (start_year <= y <= stop_year)%Z ->
     exists df, scrape_tables wikitables_at y = Ok df /\
                (py_str y, df) ∈ data self) /\
  data self
  = entry (frame_of wikitables_at) <$> py_range start_year (stop_year + 1) /\
  get_perpetrators (data self) = Ok (perpetrators self) /\
  (save_csv = false -> fs' = fs).
Proof.
  intros Hinit.
  destruct (init_data _ _ _ _ _ _ _ _ _ _ Hinit) as [Hd Ht].
  destruct (build_data_inv _ _ _ _ Hd) as [Hall Hdata].
  split; [|split; [exact Hdata|split; [exact Ht|]]].
  - intros y Hy. exists (frame_of wikitables_at y). split; [apply Hall, Hy|].
    rewrite Hdata. apply (list_elem_of_fmap_2 (entry (frame_of wikitables_at))).
    apply elem_of_py_range. lia.
  - intros ->. rewrite init_eq, Hd, Ht in Hinit. cbv zeta in Hinit.
    congruence.
Qed.

Lemma built_object_invariant_witness :
  (forall y, (2000 <= y <= 2001)%Z ->
     exists df, scrape_tables web y = Ok df /\
                (py_str y, df) ∈ data scraper_2000_2001) /\
  data scraper_2000_2001 = entry (frame_of web) <$> py_range 2000 (2001 + 1) /\
  get_perpetrators (data scraper_2000_2001)
  = Ok (perpetrators scraper_2000_2001) /\
  (false = false -> (∅ : gmap (list string) node) = ∅).
Proof.
  apply (built_object_invariant web in_cwd plain_csv 2000 2001 false "csv_data").
  vm_compute. reflexivity.
Defined.

(** ** The tally of a ScrapeResult without a repeated label *)

(** A ScrapeResult the extractor returns, on which no tally is built: the
    page of the year has two tables, the label "Perpetrator" ends up on two
    columns, the column lookup gives lists and counting them raises. *)
Lemma duplicate_label_no_tally :
  scrape_tables web_twice 2001 = Ok frame_twice /\
  build_data web_twice 2001 2001 = Ok [("2001", frame_twice)] /\
  get_perpetrators [("2001", frame_twice)] = Raise TypeError /\
  ~ (exists t, get_perpetrators [("2001", frame_twice)] = Ok t) /\
  init web_twice in_cwd plain_csv 2001 2001 true "csv_data" ∅
  = (∅, Raise TypeError).
Proof.
  assert (E : get_perpetrators [("2001", frame_twice)] = Raise TypeError)
    by (vm_compute; reflexivity).
  split; [vm_compute; reflexivity|]. split; [vm_compute; reflexivity|].
  split; [exact E|]. split.
  - intros [t Ht]. rewrite E in Ht. discriminate Ht.
  - vm_compute. reflexivity.
Qed.

Lemma objects_of_unambiguous (df : DataFrame) :
  ~ ambiguous df -> objects_of df = Scalar <$> selected_values df.
Proof.
  intros Hna. unfold objects_of, selected_values.
  destruct (selected_label df) as [name|] eqn:E.
  - destruct (selected_label_elem df name E) as [Hin ->].
    unfold column_tolist, column_values.
    destruct (positions name (columns df) 0) as [|i [|j ps]] eqn:Ep.
    + apply positions_nil_iff in Ep. contradiction.
    + rewrite <- list_fmap_compose. reflexivity.
    + destruct (values df) as [|row rows] eqn:Ev; [reflexivity|].
      exfalso. apply Hna. exists name. split; [exact E|].
      rewrite Ep, Ev. split; [simpl; lia|discriminate].
  - rewrite (selected_label_none df E). reflexivity.
Qed.

Lemma concat_objects_unambiguous (frames : list DataFrame) :
  Forall (fun df => ~ ambiguous df) frames ->
  concat (objects_of <$> frames)
  = Scalar <$> concat (selected_values <$> frames).
Proof.
  induction 1 as [|df frames Hdf _ IH]; [reflexivity|].
  cbn [fmap list_fmap concat].
  rewrite fmap_app, <- IH, (objects_of_unambiguous df Hdf). reflexivity.
Qed.

(** C3, amended.  For a ScrapeResult in which no year's frame with a row
    has the label looked up in it on several columns, the tally counts, for
    each exact value, its occurrences among the cells of the column
    labelled "Perpetrator" (else "Perpetrators") of each year's frame that
    has such a column, all years together, values compared as they are; two
    years with "Perpetrator" columns holding ISIS, ISIS and Taliban give
    ISIS 2, Taliban 1. *)
Theorem tally_counts_perpetrator_values (data : list (string * DataFrame)) :
  Forall (fun df => ~ ambiguous df) data.*2 ->
  let collected := concat (selected_values <$> data.*2) in
  (exists t,
     get_perpetrators data = Ok t /\
     forall k, t !! k = if decide (occurrences k collected = 0) then None
                        else Some (occurrences k collected)) /\
  (forall year1 year2 df1 df2,
     column_tolist df1 "Perpetrator"
     = Ok [Scalar (Some "ISIS"); Scalar (Some "ISIS")] ->
     column_tolist df2 "Perpetrator" = Ok [Scalar (Some "Taliban")] ->
     get_perpetrators [(year1, df1); (year2, df2)]
     = Ok {[ Some "ISIS" := 2; Some "Taliban" := 1 ]}).
Proof.
  intros H collected. split.
  - exists (count_all collected ∅). split.
    + rewrite get_perpetrators_eq, (concat_objects_unambiguous _ H).
      apply Counter_scalars.
    + intros k. rewrite count_all_lookup, lookup_empty.
      destruct (decide (occurrences k collected = 0)); reflexivity.
  - intros year1 year2 df1 df2 H1 H2.
    unfold get_perpetrators, collect_perpetrators.
    cbn [fmap list_fmap snd for_each].
    rewrite (collect_step_ok [] _ df1)
      by (rewrite perpetrators_of_perpetrator;
          [exact H1|exact (column_tolist_ok_elem _ _ _ H1)]).
    cbn [mbind result_bind app].
    rewrite (collect_step_ok _ _ df2)
      by (rewrite perpetrators_of_perpetrator;
          [exact H2|exact (column_tolist_ok_elem _ _ _ H2)]).
    vm_compute. reflexivity.
Qed.

Lemma tally_counts_perpetrator_values_witness :
  get_perpetrators [("2014", frame_isis); ("2015", frame_taliban)]
  = Ok {[ Some "ISIS" := 2; Some "Taliban" := 1 ]} /\
  exists t,
    get_perpetrators [("2014", frame_isis); ("2015", frame_taliban)] = Ok t /\
    t !! Some "ISIS" = Some 2 /\ t !! Some "Taliban" = Some 1 /\
    t !! Some "isis" = None.
Proof.
  destruct (tally_counts_perpetrator_values
              [("2014", frame_isis); ("2015", frame_taliban)])
    as [(t & Ht & Hcount) Hexample].
  - repeat constructor; intros (name & Hname & Htwo & _);
      vm_compute in Hname; injection Hname as <-; vm_compute in Htwo; lia.
  - split.
    + apply Hexample; vm_compute; reflexivity.
    + exists t. split; [exact Ht|]. rewrite !Hcount.
      repeat split; vm_compute; reflexivity.
Defined.

(** ** A page without tables, through the whole run *)

Lemma py_range_app (a b c : Z) :
  (a <= b <= c)%Z -> py_range a c = py_range a b ++ py_range b c.
Proof.
  intros H. unfold py_range.
  replace (c - a)%Z with ((b - a) + (c - b))%Z by lia.
  rewrite seqZ_app by lia. f_equal. f_equal. lia.
Qed.

Lemma get_perpetrators_without (data1 data2 : list (string * DataFrame))
    (year : string) (df : DataFrame) :
  objects_of df = [] ->
  get_perpetrators (data1 ++ (year, df) :: data2)
  = get_perpetrators (data1 ++ data2).
Proof.
  intros E. rewrite !get_perpetrators_eq, !fmap_app.
  cbn [fmap list_fmap snd]. rewrite !concat_app. cbn [concat].
  rewrite E. reflexivity.
Qed.

(** C6, amended.  A page with no matched table raises nothing: the
    extractor returns the frame with no label and no row, which adds
    nothing to the tally; the loop over the years goes on with the next
    year, the year being entered in the collection like any other; and when
    the run ends normally with saving enabled, the file of the year is
    written with the text of the empty frame. *)
Theorem missing_tables_empty_frame
    (wikitables_at : string -> result (list wikitable))
    (storage_get : string -> list string) (to_csv : DataFrame -> string)
    (start_year y : Z) :
  (start_year <= y)%Z ->
  wikitables_at (prefix +:+ py_str y) = Ok [] ->
  scrape_page [] = Ok (mkDataFrame [] []) /\
  scrape_tables wikitables_at y = Ok (mkDataFrame [] []) /\
  perpetrators_of (mkDataFrame [] []) = Ok [] /\
  build_data wikitables_at start_year y
  = (d ← build_data wikitables_at start_year (y - 1);
     Ok (dict_set (py_str y) (mkDataFrame [] []) d)) /\
  (forall d, year_step wikitables_at d y
             = Ok (dict_set (py_str y) (mkDataFrame [] []) d)) /\
  (forall stop_year, (y <= stop_year)%Z ->
     build_data wikitables_at start_year stop_year
     = (d ← build_data wikitables_at start_year y;
        for_each (year_step wikitables_at)
                 (py_range (y + 1) (stop_year + 1)) d)) /\
  (forall data1 data2 year,
     get_perpetrators (data1 ++ (year, mkDataFrame [] []) :: data2)
     = get_perpetrators (data1 ++ data2)) /\
  (forall stop_year csv_path fs d t,
     (y <= stop_year)%Z ->
     build_data wikitables_at start_year stop_year = Ok d ->
     get_perpetrators d = Ok t ->
     way_clear (storage_get csv_path) fs ->
     files_free (storage_get csv_path) d.*1 fs ->
     exists fs',
       init wikitables_at storage_get to_csv start_year stop_year true
            csv_path fs
       = (fs', Ok (mkWikiScraper d t)) /\
       (py_str y, mkDataFrame [] []) ∈ d /\
       fs' !! csv_file (storage_get csv_path) (py_str y)
       = Some (File (to_csv (mkDataFrame [] [])))).
Proof.
  intros Hy Hpg.
  assert (Hscrape : scrape_tables wikitables_at y = Ok (mkDataFrame [] [])).
  { rewrite scrape_tables_eq, Hpg. reflexivity. }
  split; [reflexivity|]. split; [exact Hscrape|]. split; [reflexivity|].
  split.
  { rewrite !build_data_eq.
    replace (y - 1 + 1)%Z with y by lia.
    rewrite (py_range_app start_year y (y + 1)) by lia.
    rewrite for_each_app.
    destruct (for_each (year_step wikitables_at) (py_range start_year y) [])
      as [d|e]; cbn [mbind result_bind]; [|reflexivity].
    unfold py_range. replace (y + 1 - y)%Z with 1%Z by lia.
    cbn [for_each seqZ]. change (seqZ y 1) with [(0 + y)%Z].
    cbn [for_each]. replace (0 + y)%Z with y by lia.
    rewrite (year_step_ok _ _ _ _ Hscrape). reflexivity. }
  split; [intros d; apply year_step_ok, Hscrape|].
  split.
  { intros stop_year Hstop. rewrite !build_data_eq.
    rewrite (py_range_app start_year (y + 1) (stop_year + 1)) by lia.
    apply for_each_app. }
  split; [intros data1 data2 year; apply get_perpetrators_without; reflexivity|].
  intros stop_year csv_path fs d t Hstop Hd Ht Hway Hfree.
  pose proof (build_data_NoDup _ _ _ _ Hd) as Hnd.
  destruct (build_data_inv _ _ _ _ Hd) as [_ Hdata].
  assert (Hin : (py_str y, mkDataFrame [] []) ∈ d).
  { rewrite Hdata.
    replace (py_str y, mkDataFrame [] [])
      with (entry (frame_of wikitables_at) y)
      by (unfold entry, frame_of; rewrite Hscrape; reflexivity).
    apply list_elem_of_fmap_2, elem_of_py_range. lia. }
  exists (written to_csv (storage_get csv_path) d fs).
  split; [|split; [exact Hin|]].
  - rewrite init_eq, Hd, Ht. cbv zeta.
    rewrite (save_all_ok to_csv _ d fs Hway Hfree). reflexivity.
  - apply written_lookup_file; assumption.
Qed.

Lemma missing_tables_empty_frame_witness :
  scrape_tables web_gap 2000 = Ok frame_empty /\
  build_data web_gap 2000 2001
  = Ok [("2000", frame_empty); ("2001", frame_2000)] /\
  exists fs',
    init web_gap in_cwd plain_csv 2000 2001 true "csv_data" ∅
    = (fs', Ok (mkWikiScraper [("2000", frame_empty); ("2001", frame_2000)]
                              {[ Some "Al-Qaeda" := 2 ]})) /\
    fs' !! ["csv_data"; "2000.csv"] = Some (File (plain_csv frame_empty)).
Proof.
  destruct (missing_tables_empty_frame web_gap in_cwd plain_csv 2000 2000)
    as (_ & Hscrape & _ & _ & _ & _ & _ & Hrun).
  - lia.
  - vm_compute. reflexivity.
  - assert (Hd : build_data web_gap 2000 2001
                 = Ok [("2000", frame_empty); ("2001", frame_2000)])
      by (vm_compute; reflexivity).
    split; [exact Hscrape|]. split; [exact Hd|].
    destruct (Hrun 2001%Z "csv_data" ∅ _ {[ Some "Al-Qaeda" := 2 ]}
                ltac:(lia) Hd) as (fs' & Hinit & _ & Hfile).
    + vm_compute. reflexivity.
    + intros q c _. rewrite lookup_empty. discriminate.
    + intros year _. rewrite lookup_empty. discriminate.
    + exists fs'. split; [exact Hinit|exact Hfile].
Defined.

(** ** What later tables add to a frame *)

Lemma pad_wider (w w' : nat) (row : list string) :
  length row <= w -> w <= w' ->
  pad w' row = pad w row ++ replicate (w' - w) None.
Proof.
  intros Hrow Hw. unfold pad. rewrite <- app_assoc, <- replicate_add.
  f_equal. f_equal. lia.
Qed.

(** X8. Tables further down the page only append: the labels collected
    from the first tables are kept, in place, with the new labels after
    them; the rows collected from the first tables are kept, in place, each
    extended by nothing but missing values, as many as there are new
    labels. *)
Theorem later_tables_only_append (pg pg' : list wikitable)
    (df df' : DataFrame) :
  scrape_page pg = Ok df ->
  scrape_page (pg ++ pg') = Ok df' ->
  columns df `prefix_of` columns df' /\
  forall i row, values df !! i = Some row ->
    values df' !! i
    = Some (row ++ replicate (length (columns df') - length (columns df)) None).
Proof.
  intros Hdf Hdf'.
  destruct (scrape_page_cases pg) as [[_ E]|[_ E]];
    rewrite E in Hdf; [|discriminate]. injection Hdf as <-.
  destruct (scrape_page_cases (pg ++ pg')) as [[_ E']|[_ E']];
    rewrite E' in Hdf'; [|discriminate]. injection Hdf' as <-.
  cbn [columns values]. rewrite fold_left_app.
  set (hl := fold_left capture pg []).
  assert (Hp : hl `prefix_of` fold_left capture pg' hl)
    by apply fold_capture_prefix.
  split; [exact Hp|].
  intros i row Hrow.
  apply list_lookup_fmap_Some in Hrow as (r & -> & Hr).
  rewrite fmap_app, concat_app, list_lookup_fmap, lookup_app_l
    by (apply lookup_lt_Some in Hr; exact Hr).
  rewrite Hr. cbn [fmap option_fmap option_map]. f_equal.
  apply pad_wider; [|apply prefix_length, Hp].
  unfold hl. rewrite (widths_invariant pg [] [] eq_refl). cbn [app].
  apply max_list_elem_of_le, list_elem_of_fmap_2.
  apply list_elem_of_lookup. eauto.
Qed.

Lemma later_tables_only_append_witness :
  ["Date"; "Perpetrator"] `prefix_of` ["Date"; "Perpetrator"; "Perpetrator"] /\
  forall i row, values frame_2000 !! i = Some row ->
    [[Some "2001-09-11"; Some "Al-Qaeda"; None];
     [Some "2005-07-07"; Some "Al-Qaeda"; None];
     [Some "ETA"; Some "3"; Some "2001-11-06"]] !! i
    = Some (row ++ replicate (3 - 2) None).
Proof.
  apply (later_tables_only_append [table_2001] [table_wide] frame_2000
           frame_twice);
    vm_compute; reflexivity.
Defined.
